(** * OllamaDiscordBot: a shallow embedding of [OllamaDiscordBot.py]

    The bot keeps one dictionary, [user_languages], from Discord user ids
    to a language instruction, and relays prompts to an Ollama HTTP
    endpoint.  This file embeds the three command-level pieces that carry
    logic: the [language] command ([set_language]), the HTTP relay
    ([call_ollama_api]) and the [ask] command ([ask_ollama]).

    Conventions of the embedding.
    - A Python [str] is a [string]; a character is a code point in
      0..255 (Latin-1).  [len] is [String.length].
    - The dictionary [user_languages] is a [gmap Z string].
    - A Python exception is a value [exn] (class and [str(e)] text);
      code that may raise returns a [result].
    - [ctx.send] and [logger.*] calls are collected, in order, in the
      value a handler returns. *)

From Stdlib Require Import ZArith String Ascii List Lia DecimalString.
From stdpp Require Import base option list gmap strings.


(** ** Python string primitives *)

Module PyStr.

(** [str.lower] on one code point below 256: the ASCII capitals and the
    Latin-1 capitals U+00C0..U+00DE (without the sign U+00D7) move up
    by 32; every other code point is kept. *)
Definition lower_char (c : ascii) : ascii :=
  let n := nat_of_ascii c in
  if (((65 <=? n) && (n <=? 90))
      || ((192 <=? n) && (n <=? 222) && negb (n =? 215)))%nat
  then ascii_of_nat (n + 32)
  else c.

Fixpoint lower (s : string) : string :=
  match s with
  | EmptyString => EmptyString
  | String c r => String (lower_char c) (lower r)
  end.

(** The characters [str.strip()] removes (what [str.isspace] accepts),
    below 256: TAB..CR, FS..US, SPACE, NEL and NBSP. *)
Definition is_space (c : ascii) : bool :=
  let n := nat_of_ascii c in
  (((9 <=? n) && (n <=? 13)) || ((28 <=? n) && (n <=? 32))
   || (n =? 133) || (n =? 160))%nat.

Fixpoint lstrip (s : string) : string :=
  match s with
  | EmptyString => EmptyString
  | String c r => if is_space c then lstrip r else s
  end.

Fixpoint rstrip (s : string) : string :=
  match s with
  | EmptyString => EmptyString
  | String c r =>
      match rstrip r with
      | EmptyString => if is_space c then EmptyString else String c EmptyString
      | r' => String c r'
      end
  end.

(** [s.strip()] *)
Definition strip (s : string) : string := rstrip (lstrip s).

(** [s[:n]] for a non-negative [n] *)
Definition slice_to (n : nat) (s : string) : string := substring 0 n s.

(** [needle in hay] on two strings: substring test. *)
Fixpoint contains (needle hay : string) : bool :=
  String.prefix needle hay
  || match hay with
     | EmptyString => false
     | String _ r => contains needle r
     end.

End PyStr.

(** ** Python values and exceptions *)

(** The exception classes the relay can meet, each with its method
    resolution order up to [Exception].  The [requests] classes are those
    of [requests.exceptions] (2.27 and later), where [Response.json]
    raises [requests.exceptions.JSONDecodeError], a subclass of both
    [InvalidJSONError] and [json.JSONDecodeError].  [BaseOnly] stands for
    the classes that derive from [BaseException] and not from [Exception]
    ([asyncio.CancelledError], [KeyboardInterrupt], [SystemExit]): no
    [except Exception] clause takes them. *)
Inductive exn_class :=
  | Exception | OSError | ValueError | LookupError | NameError
  | TypeError | AttributeError | KeyError | UnboundLocalError
  | JSONDecodeError                 (* json.JSONDecodeError *)
  | RequestException | Timeout | ReadTimeout | ConnectionError
  | ConnectTimeout | HTTPError | InvalidJSONError
  | RequestsJSONDecodeError         (* requests.exceptions.JSONDecodeError *)
  | OtherException (name : string)  (* any further direct subclass of Exception *)
  | BaseOnly (name : string).       (* a subclass of BaseException only *)

#[global] Instance exn_class_eq_dec : EqDecision exn_class.
Proof. solve_decision. Defined.

Definition mro (c : exn_class) : list exn_class :=
  match c with
  | Exception => [Exception]
  | OSError => [OSError; Exception]
  | ValueError => [ValueError; Exception]
  | LookupError => [LookupError; Exception]
  | NameError => [NameError; Exception]
  | TypeError => [TypeError; Exception]
  | AttributeError => [AttributeError; Exception]
  | KeyError => [KeyError; LookupError; Exception]
  | UnboundLocalError => [UnboundLocalError; NameError; Exception]
  | JSONDecodeError => [JSONDecodeError; ValueError; Exception]
  | RequestException => [RequestException; OSError; Exception]
  | Timeout => [Timeout; RequestException; OSError; Exception]
  | ReadTimeout => [ReadTimeout; Timeout; RequestException; OSError; Exception]
  | ConnectionError => [ConnectionError; RequestException; OSError; Exception]
  | ConnectTimeout =>
      [ConnectTimeout; ConnectionError; Timeout; RequestException; OSError; Exception]
  | HTTPError => [HTTPError; RequestException; OSError; Exception]
  | InvalidJSONError => [InvalidJSONError; RequestException; OSError; Exception]
  | RequestsJSONDecodeError =>
      [RequestsJSONDecodeError; InvalidJSONError; RequestException; OSError;
       JSONDecodeError; ValueError; Exception]
  | OtherException name => [OtherException name; Exception]
  | BaseOnly name => [BaseOnly name]
  end.

(** A raised exception: its class and [str(e)]. *)
Record exn := mkExn {
  exn_cls : exn_class;
  exn_str : string
}.

(** [isinstance(e, c)] *)
Definition isinstance (e : exn) (c : exn_class) : bool :=
  bool_decide (c ∈ mro (exn_cls e)).

Inductive result (A : Type) :=
  | Ret (a : A)
  | Raise (e : exn).
Arguments Ret {A} a.
Arguments Raise {A} e.

#[global] Instance result_ret : MRet result := fun A a => Ret a.

#[global] Instance result_bind : MBind result := fun A B k m =>
  match m with
  | Ret a => k a
  | Raise e => Raise e
  end.

#[global] Instance Ret_inj {A} : Inj (=) (=) (@Ret A).
Proof. by intros a b [= ->]. Qed.

(** What [json.loads] can produce.  A float keeps only its literal: the
    relay never computes with numbers.  A dict is its list of items;
    [dict_get] reads the first item with the key. *)
#[warnings="-register-all"]
Inductive pyval :=
  | PNone
  | PBool (b : bool)
  | PInt (z : Z)
  | PFloat (literal : string)
  | PStr (s : string)
  | PList (items : list pyval)
  | PDict (items : list (string * pyval)).

Module Py.

Definition type_name (v : pyval) : string :=
  match v with
  | PNone => "NoneType"
  | PBool _ => "bool"
  | PInt _ => "int"
  | PFloat _ => "float"
  | PStr _ => "str"
  | PList _ => "list"
  | PDict _ => "dict"
  end.

Fixpoint dict_get (items : list (string * pyval)) (key : string) : option pyval :=
  match items with
  | [] => None
  | (k, v) :: rest => if String.eqb k key then Some v else dict_get rest key
  end.

(** [key == v] for a [str] key *)
Definition eq_str (key : string) (v : pyval) : bool :=
  match v with
  | PStr s => String.eqb key s
  | _ => false
  end.

(** [key in v] for a [str] key: dict membership, list membership,
    substring test; [TypeError] on a value that is no container. *)
Definition contains (key : string) (v : pyval) : result bool :=
  match v with
  | PDict items =>
      Ret (match dict_get items key with Some _ => true | None => false end)
  | PList items => Ret (existsb (eq_str key) items)
  | PStr s => Ret (PyStr.contains key s)
  | _ => Raise (mkExn TypeError
                  ("argument of type '" +:+ type_name v +:+ "' is not iterable"))
  end.

(** [v[key]] for a [str] key *)
Definition getitem (v : pyval) (key : string) : result pyval :=
  match v with
  | PDict items =>
      match dict_get items key with
      | Some x => Ret x
      | None => Raise (mkExn KeyError ("'" +:+ key +:+ "'"))
      end
  | PList _ =>
      Raise (mkExn TypeError "list indices must be integers or slices, not str")
  | PStr _ =>
      Raise (mkExn TypeError "string indices must be integers, not 'str'")
  | _ => Raise (mkExn TypeError
                  ("'" +:+ type_name v +:+ "' object is not subscriptable"))
  end.

(** [v.strip()]: only [str] has the method. *)
Definition strip (v : pyval) : result string :=
  match v with
  | PStr s => Ret (PyStr.strip s)
  | _ => Raise (mkExn AttributeError
                  ("'" +:+ type_name v +:+ "' object has no attribute 'strip'"))
  end.

End Py.

(** ** The HTTP library at its interface *)

(** The keyword arguments of the [requests.post] call of line 58. *)
Record Request := mkRequest {
  req_url : string;
  req_model : string;           (* payload["model"] *)
  req_role : string;            (* payload["messages"][0]["role"] *)
  req_content : string;         (* payload["messages"][0]["content"] *)
  req_stream : bool;            (* payload["stream"] *)
  req_content_type : string;    (* headers["Content-Type"] *)
  req_timeout : Z
}.

(** A [requests.Response]: the attributes the relay reads, and what its
    [json()] method does (returns the decoded body or raises).  [text] is
    read only by the handler of line 82. *)
Record Response := mkResponse {
  status_code : Z;
  reason : string;
  url : string;
  text : string;
  json : result pyval
}.

Module Http.

Definition decimal (z : Z) : string :=
  NilZero.string_of_int (Z.to_int z).

(** [Response.raise_for_status]: [HTTPError] for a status in 400..599
    (line 60: "bad status codes (4xx or 5xx)"), nothing otherwise. *)
Definition raise_for_status (r : Response) : result unit :=
  if ((400 <=? status_code r) && (status_code r <? 500))%Z then
    Raise (mkExn HTTPError
             (decimal (status_code r) +:+ " Client Error: " +:+ reason r
              +:+ " for url: " +:+ url r))
  else if ((500 <=? status_code r) && (status_code r <? 600))%Z then
    Raise (mkExn HTTPError
             (decimal (status_code r) +:+ " Server Error: " +:+ reason r
              +:+ " for url: " +:+ url r))
  else Ret tt.

End Http.

(** ** Effects of a command handler *)

(** One executed [logger] call, with the values its f-string
    interpolates kept as data. *)
Inductive log_record :=
  | LogUnexpectedStructure (response_data : pyval)          (* line 72 *)
  | LogTimedOut (api_url : string)                          (* line 76 *)
  | LogRequestFailed (e : exn)                              (* line 79 *)
  | LogDecodeFailed (snippet : string)                      (* line 82, [response.text[:200]] *)
  | LogMissingKey (e : exn) (response_data : pyval)         (* line 85 *)
  | LogUnexpectedError (e : exn)                            (* line 88 *)
  | LogPrompted (author prompt_text full_prompt : string)   (* line 126 *)
  | LogReset (author : string)                              (* line 148 *)
  | LogSet (author language_name : string).                 (* line 153 *)

(** The invoking context: [ctx.author.id] and [str(ctx.author)]. *)
Record Context := mkContext {
  author_id : Z;
  author : string
}.

(** ** The preference store: [user_languages] and the [language] command *)

Module Prefs.

(** [user_languages = {}] *)
Definition initial : gmap Z string := ∅.

(** The list literal of line 143. *)
Definition reset_keywords : list string :=
  ["default"; "reset"; "english"; "en"; ""].

(** [user_languages.get(user_id, "")] (line 122) *)
Definition get (user_languages : gmap Z string) (user_id : Z) : string :=
  default "" (user_languages !! user_id).

(** What one run of [set_language] leaves behind. *)
Record outcome := mkOutcome {
  store : gmap Z string;        (* [user_languages] afterwards *)
  instruction : string;         (* the local [instruction] *)
  sent : list string;           (* [ctx.send] calls *)
  logged : list log_record      (* [logger.info] calls *)
}.

(** [set_language(ctx, language_name)], lines 139-153.  In the reset
    branch [del] runs under the guard [user_id in user_languages]. *)
Definition set_language (user_languages : gmap Z string)
    (ctx : Context) (language_name : string) : outcome :=
  let user_id := author_id ctx in
  if bool_decide (PyStr.lower language_name ∈ reset_keywords) then
    {| store :=
         if bool_decide (is_Some (user_languages !! user_id))
         then delete user_id user_languages
         else user_languages;
       instruction := "";
       sent := ["Okay, I'll use the default language (English) for your prompts."];
       logged := [LogReset (author ctx)] |}
  else
    let instruction := "Answer me in " +:+ language_name +:+ "." in
    {| store := <[user_id := instruction]> user_languages;
       instruction := instruction;
       sent := ["Okay, I will write my answers in " +:+ language_name
                +:+ " for your future prompts."];
       logged := [LogSet (author ctx) language_name] |}.

(** A history of [language] commands, oldest first, run from a store. *)
Definition run (cmds : list (Context * string)) (st : gmap Z string)
    : gmap Z string :=
  fold_left (fun st cmd => store (set_language st cmd.1 cmd.2)) cmds st.

End Prefs.

(** ** The relay: [call_ollama_api] *)

(** [SHORT_ANSWER_PROMPT], line 37 *)
Definition SHORT_ANSWER_PROMPT : string :=
  "Give me a short answer but don't mention that I've asked you to make it short.".

(** The [except] clauses of lines 75-89, in source order. *)
Inductive clause :=
  | ExceptTimeout | ExceptRequestException | ExceptJSONDecodeError
  | ExceptKeyError | ExceptException.

Definition clause_class (c : clause) : exn_class :=
  match c with
  | ExceptTimeout => Timeout
  | ExceptRequestException => RequestException
  | ExceptJSONDecodeError => JSONDecodeError
  | ExceptKeyError => KeyError
  | ExceptException => Exception
  end.

Definition clauses : list clause :=
  [ExceptTimeout; ExceptRequestException; ExceptJSONDecodeError;
   ExceptKeyError; ExceptException].

(** The first clause whose class the exception is an instance of. *)
Definition select (e : exn) : option clause :=
  List.find (fun c => isinstance e (clause_class c)) clauses.

(** The locals of [call_ollama_api] a handler reads; [None] while the
    name is still unbound. *)
Record locals := mkLocals {
  response : option Response;
  response_data : option pyval
}.

Definition unbound (name : string) : exn :=
  mkExn UnboundLocalError
    ("cannot access local variable '" +:+ name
     +:+ "' where it is not associated with a value").

Section Relay.

(** Configuration read from [config.json], and the HTTP library call
    [requests.post] as the environment gives it. *)
Variable API_URL : string.
Variable OLLAMA_MODEL : string.
Variable post : Request -> result Response.

(** Lines 46-51 and the arguments of line 58. *)
Definition payload (prompt : string) : Request :=
  {| req_url := API_URL;
     req_model := OLLAMA_MODEL;
     req_role := "user";
     req_content := prompt;
     req_stream := false;
     req_content_type := "application/json";
     req_timeout := 120 |}.

(** Lines 66-73: the shape check on the decoded body. *)
Definition extract (response_data : pyval)
    : list log_record * result string :=
  match (has_message ← Py.contains "message" response_data;
         if has_message : bool
         then message ← Py.getitem response_data "message";
              Py.contains "content" message
         else mret false) with
  | Raise e => ([], Raise e)
  | Ret true =>
      ([], message ← Py.getitem response_data "message";
           content ← Py.getitem message "content";
           Py.strip content)
  | Ret false =>
      match Py.contains "response" response_data with
      | Raise e => ([], Raise e)
      | Ret true =>
          ([], value ← Py.getitem response_data "response"; Py.strip value)
      | Ret false =>
          ([LogUnexpectedStructure response_data],
           Ret "Error: Received an unexpected response format from the AI.")
      end
  end.

(** The [try] suite, lines 55-73: the locals bound when it ends, its
    log, and its return value or the exception it raises. *)
Definition try_suite (prompt : string)
    : locals * (list log_record * result string) :=
  match post (payload prompt) with
  | Raise e => (mkLocals None None, ([], Raise e))
  | Ret r =>
      match Http.raise_for_status r with
      | Raise e => (mkLocals (Some r) None, ([], Raise e))
      | Ret _ =>
          match json r with
          | Raise e => (mkLocals (Some r) None, ([], Raise e))
          | Ret d => (mkLocals (Some r) (Some d), extract d)
          end
      end
  end.

(** The body of each [except] clause.  A handler that reads a local
    the [try] suite had not bound yet raises [UnboundLocalError]. *)
Definition handle (c : clause) (lc : locals) (e : exn)
    : list log_record * result string :=
  match c with
  | ExceptTimeout =>
      ([LogTimedOut API_URL], Ret "Error: The request to the AI timed out.")
  | ExceptRequestException =>
      ([LogRequestFailed e],
       Ret ("Error: Could not connect to the AI service at " +:+ API_URL
            +:+ ". Details: " +:+ exn_str e))
  | ExceptJSONDecodeError =>
      match response lc with
      | Some r =>
          ([LogDecodeFailed (PyStr.slice_to 200 (text r))],
           Ret "Error: Received an invalid response from the AI.")
      | None => ([], Raise (unbound "response"))
      end
  | ExceptKeyError =>
      match response_data lc with
      | Some d =>
          ([LogMissingKey e d],
           Ret "Error: Received an incomplete response format from the AI.")
      | None => ([], Raise (unbound "response_data"))
      end
  | ExceptException =>
      ([LogUnexpectedError e],
       Ret ("An unexpected error occurred while contacting the AI. Details: "
            +:+ exn_str e))
  end.

(** [call_ollama_api(prompt)], lines 44-89: the log and the returned
    string, or the exception that leaves the coroutine. *)
Definition call_ollama_api (prompt : string)
    : list log_record * result string :=
  match try_suite prompt with
  | (_, (lg, Ret s)) => (lg, Ret s)
  | (lc, (lg, Raise e)) =>
      match select e with
      | Some c => let '(lg', r) := handle c lc e in (lg ++ lg', r)
      | None => (lg, Raise e)
      end
  end.

(** ** The [ask] command *)

(** Line 125 *)
Definition full_prompt (language_instruction prompt_text : string) : string :=
  PyStr.strip (language_instruction +:+ " " +:+ SHORT_ANSWER_PROMPT
               +:+ " " +:+ prompt_text).

(** Lines 132-137: the argument of the one [ctx.send] call. *)
Definition outgoing (response_text : string) : string :=
  if (2000 <? String.length response_text)%nat then
    PyStr.slice_to 1997 response_text +:+ "..."
  else if bool_decide (response_text = "") then
    "The AI didn't provide a response."
  else response_text.

Record ask_outcome := mkAsk {
  ask_store : gmap Z string;      (* [user_languages] afterwards *)
  ask_sent : list string;         (* [ctx.send] calls *)
  ask_logged : list log_record;
  ask_raised : option exn         (* exception leaving the command *)
}.

(** [ask_ollama(ctx, prompt_text)], lines 118-137 *)
Definition ask_ollama (user_languages : gmap Z string)
    (ctx : Context) (prompt_text : string) : ask_outcome :=
  let user_id := author_id ctx in
  let language_instruction := Prefs.get user_languages user_id in
  let prompt := full_prompt language_instruction prompt_text in
  let lg0 := [LogPrompted (author ctx) prompt_text prompt] in
  match call_ollama_api prompt with
  | (lg, Ret response_text) =>
      mkAsk user_languages [outgoing response_text] (lg0 ++ lg) None
  | (lg, Raise e) => mkAsk user_languages [] (lg0 ++ lg) (Some e)
  end.

End Relay.

(** ** Vocabulary for the ways the relay ends *)

Module RelayCases.

(** The three texts the relay builds or returns on failure. *)
Definition unexpected_format : string :=
  "Error: Received an unexpected response format from the AI.".

Definition could_not_connect (API_URL : string) (e : exn) : string :=
  "Error: Could not connect to the AI service at " +:+ API_URL
  +:+ ". Details: " +:+ exn_str e.

(** The clause selected for [e], run on the locals [lc]. *)
Definition handled (API_URL : string) (lc : locals) (e : exn)
    : list log_record * result string :=
  match select e with
  | Some c => handle API_URL c lc e
  | None => ([], Raise e)
  end.

Definition unexpected_error (e : exn) : string :=
  "An unexpected error occurred while contacting the AI. Details: "
  +:+ exn_str e.

(** The [message] member is absent, or the test ["content" in message]
    is false. *)
Definition lacks_content (items : list (string * pyval)) : Prop :=
  Py.dict_get items "message" = None
  ∨ ∃ m, Py.dict_get items "message" = Some m
         ∧ Py.contains "content" m = Ret false.

(** How the shape check can end. *)
Inductive extract_end (d : pyval) : list log_record * result string → Prop :=
  | EndText s : extract_end d ([], Ret s)
  | EndUnexpected :
      extract_end d ([LogUnexpectedStructure d], Ret unexpected_format)
  | EndRaised e :
      exn_cls e = TypeError ∨ exn_cls e = AttributeError →
      extract_end d ([], Raise e).

(** How the relay ends once the body is decoded. *)
Inductive decoded_end (d : pyval) : list log_record * result string → Prop :=
  | DecodedText s :
      extract d = ([], Ret s) → decoded_end d ([], Ret s)
  | DecodedUnexpected :
      decoded_end d ([LogUnexpectedStructure d], Ret unexpected_format)
  | DecodedRaised e :
      exn_cls e = TypeError ∨ exn_cls e = AttributeError →
      decoded_end d ([LogUnexpectedError e], Ret (unexpected_error e)).

End RelayCases.

(** ** Start-up: configuration loading and the main guard *)

Module Startup.

(** What the statement [with open("config.json", 'r') as f: config =
    json.load(f)] does: [open] raises [FileNotFoundError], or the
    statement returns the decoded value or raises something else (an
    other failure of [open], or what [json.load] raises). *)
Inductive config_file :=
  | FileMissing
  | Reads (loaded : result pyval).

(** The module globals bound by lines 12-17. *)
Record Config := mkConfig {
  DISCORD_TOKEN : pyval;
  API_URL : pyval;
  PREFIX : pyval;
  OLLAMA_MODEL : pyval;
  HOSTED_BY : pyval;
  VERSION : pyval
}.

(** [v.get(key, default)]: only a dict has the method. *)
Definition get (v : pyval) (key : string) (default : pyval) : result pyval :=
  match v with
  | PDict items =>
      Ret (match Py.dict_get items key with Some x => x | None => default end)
  | _ => Raise (mkExn AttributeError
                  ("'" +:+ Py.type_name v +:+ "' object has no attribute 'get'"))
  end.

(** Lines 12-17 *)
Definition read_config (config : pyval) : result Config :=
  discord_token ← Py.getitem config "discord_token";
  api_url ← Py.getitem config "api_url";
  prefix ← Py.getitem config "prefix";
  ollama_model ← get config "ollama_model" (PStr "llama3.2:3b");
  hosted_by ← get config "hosted_by" PNone;
  version ← get config "version" PNone;
  mret (mkConfig discord_token api_url prefix ollama_model hosted_by version).

(** How the module body of lines 8-26 ends: the globals are bound, or a
    line is printed and [exit()] ends the process, or an exception no
    clause takes ends it with a traceback. *)
Inductive load_outcome :=
  | Loaded (cfg : Config)
  | Exited (printed : string)
  | Crashed (e : exn).

(** Lines 9-26.  The clauses are tried in source order:
    [FileNotFoundError], [KeyError], [json.JSONDecodeError]. *)
Definition load_config (f : config_file) : load_outcome :=
  match f with
  | FileMissing => Exited "Error: config.json not found. Please create it."
  | Reads loaded =>
      match (config ← loaded; read_config config) with
      | Ret cfg => Loaded cfg
      | Raise e =>
          if isinstance e KeyError then
            Exited ("Error: Missing key in config.json: " +:+ exn_str e)
          else if isinstance e JSONDecodeError then
            Exited "Error: config.json is not valid JSON."
          else Crashed e
      end
  end.

(** What [bot.run(DISCORD_TOKEN)] does: it returns when the bot stops,
    raises [discord.LoginFailure], or raises another exception. *)
Inductive run_outcome :=
  | Returns
  | LoginFailure
  | RunRaises (e : exn).

Record main_outcome := mkMain {
  printed : list string;      (* [print] calls *)
  started : option pyval      (* the argument of the [bot.run] call, if made *)
}.

Section Main.

(** Whether the float a literal denotes is non-zero, as the interpreter
    decides it. *)
Variable float_nonzero : string -> bool.

(** [bool(v)] *)
Definition truthy (v : pyval) : bool :=
  match v with
  | PNone => false
  | PBool b => b
  | PInt z => negb (z =? 0)%Z
  | PFloat literal => float_nonzero literal
  | PStr s => negb (String.eqb s "")
  | PList items => match items with [] => false | _ => true end
  | PDict items => match items with [] => false | _ => true end
  end.

(** Lines 198-207, run as a script. *)
Definition main (token : pyval) (run : pyval -> run_outcome) : main_outcome :=
  if Py.eq_str "YOUR_DISCORD_BOT_TOKEN_HERE" token || negb (truthy token) then
    mkMain ["Error: Please set your DISCORD_TOKEN in config.json"] None
  else
    match run token with
    | Returns => mkMain [] (Some token)
    | LoginFailure =>
        mkMain ["Error: Invalid Discord Token. Please check config.json."]
          (Some token)
    | RunRaises e =>
        if isinstance e Exception then
          mkMain ["An error occurred while starting the bot: " +:+ exn_str e]
            (Some token)
        else mkMain [] (Some token)   (* no clause takes it *)
    end.

(** The script from its first line to its last: the configuration is
    loaded, then the main guard runs.  The statements in between (the
    bot object, the logging set-up, the decorators of lines 28-41, 93-155)
    are taken to complete. *)
Definition script (f : config_file) (run : pyval -> run_outcome) : main_outcome :=
  match load_config f with
  | Loaded cfg => main (DISCORD_TOKEN cfg) run
  | Exited line => mkMain [line] None
  | Crashed _ => mkMain [] None
  end.

End Main.

End Startup.

(** ** The error handler and the [help] command *)

Module Events.

(** The argument of [on_command_error], by the [isinstance] tests of
    lines 103-112; [OtherCommandError] carries [str(error)]. *)
Inductive command_error :=
  | CommandNotFound
  | MissingRequiredArgument
  | CommandInvokeError (original : exn)
  | OtherCommandError (text : string).

Inductive error_log :=
  | LogInvokeError (command : string) (original : exn)   (* line 110 *)
  | LogUnhandled (text : string).                        (* line 113 *)

Record error_outcome := mkErrorOutcome {
  err_sent : list string;
  err_logged : list error_log
}.

(** [on_command_error(ctx, error)], lines 100-114; [command] is
    [str(ctx.command)]. *)
Definition on_command_error (PREFIX command : string) (error : command_error)
    : error_outcome :=
  match error with
  | CommandNotFound => mkErrorOutcome [] []
  | MissingRequiredArgument =>
      mkErrorOutcome
        ["You missed an argument for the `" +:+ command +:+ "` command. Check `"
         +:+ PREFIX +:+ "help " +:+ command +:+ "`."] []
  | CommandInvokeError original =>
      mkErrorOutcome ["An error occurred while running this command."]
        [LogInvokeError command original]
  | OtherCommandError text =>
      mkErrorOutcome ["An unexpected error occurred."] [LogUnhandled text]
  end.

(** A [discord.Embed]: what [custom_help] sets. *)
Record Field := mkField {
  field_name : string;
  field_value : string;
  field_inline : bool
}.

Record Embed := mkEmbed {
  title : string;
  description : string;
  color : Z;
  fields : list Field
}.

(** [str(v)] as an f-string interpolates it, for the values whose text
    involves no float formatting and no [repr] of a container. *)
Definition str (v : pyval) : option string :=
  match v with
  | PNone => Some "None"
  | PBool true => Some "True"
  | PBool false => Some "False"
  | PInt z => Some (Http.decimal z)
  | PStr s => Some s
  | _ => None
  end.

(** [custom_help(ctx)], lines 155-194: the embed sent, given the texts
    the f-strings interpolate for the four globals. *)
Definition custom_help (PREFIX OLLAMA_MODEL HOSTED_BY VERSION : string) : Embed :=
  {| title := "Ollama Bot Help";
     description :=
       "I can answer your questions using an Ollama AI model. My command prefix is `"
       +:+ PREFIX +:+ "`.";
     color := 0x3498db;         (* [discord.Color.blue()] *)
     fields :=
       [ mkField (PREFIX +:+ "ask <your question>")
           "Asks the AI your question. The AI is instructed to give short answers."
           false;
         mkField (PREFIX +:+ "language <language name>")
           "Tells the AI to try and respond in the specified language for your future prompts (e.g., `spanish`, `french`, `japanese`)."
           false;
         mkField (PREFIX +:+ "language default")
           "Resets your language preference to the default (English)."
           false;
         mkField (PREFIX +:+ "help") "Shows this help message." false;
         mkField "Instance Informations"
           ("Using model: " +:+ OLLAMA_MODEL +:+ " hosted by " +:+ HOSTED_BY)
           false;
         mkField ("Ollama Discord Bot | Version: " +:+ VERSION)
           "github.com/Nakildias/OllamaDiscordBot" false ] |}.

(** The embed for a loaded configuration, when the four globals are
    values [str] covers. *)
Definition help_for (cfg : Startup.Config) : option Embed :=
  prefix ← str (Startup.PREFIX cfg);
  model ← str (Startup.OLLAMA_MODEL cfg);
  hosted_by ← str (Startup.HOSTED_BY cfg);
  version ← str (Startup.VERSION cfg);
  Some (custom_help prefix model hosted_by version).

End Events.

(** ** Histories of [language] commands *)

Module History.

(** The name given in the last command of user [u], if any. *)
Fixpoint last_name (u : Z) (cmds : list (Context * string)) : option string :=
  match cmds with
  | [] => None
  | (ctx, name) :: rest =>
      match last_name u rest with
      | Some later => Some later
      | None => if bool_decide (author_id ctx = u) then Some name else None
      end
  end.

(** The entry a command with [name] leaves for its author. *)
Definition entry_of (name : string) : option string :=
  if bool_decide (PyStr.lower name ∈ Prefs.reset_keywords) then None
  else Some ("Answer me in " +:+ name +:+ ".").

End History.

(** ** Blank texts *)

Module Blank.

(** Every character is one [str.strip()] removes. *)
Fixpoint blank (s : string) : bool :=
  match s with
  | EmptyString => true
  | String c r => PyStr.is_space c && blank r
  end.

End Blank.

(** ** The normalization of the specification *)

Module Normalize.

(** The [content] field of the body's [message] object, if the body is
    an object that has one. *)
Definition message_content (d : pyval) : option pyval :=
  match d with
  | PDict items =>
      match Py.dict_get items "message" with
      | Some (PDict m) => Py.dict_get m "content"
      | _ => None
      end
  | _ => None
  end.

(** The top-level [response] field of the body, if the body is an object
    that has one. *)
Definition top_response (d : pyval) : option pyval :=
  match d with
  | PDict items => Py.dict_get items "response"
  | _ => None
  end.

(** A value "trimmed of leading and trailing whitespace": defined for a
    string. *)
Definition trimmed (v : pyval) : option string :=
  match v with
  | PStr s => Some (PyStr.strip s)
  | _ => None
  end.

(** The precedence as the specification words it: [message.content]
    first, then [response], then the fixed message (with its log
    record). *)
Definition normalized (d : pyval) : option (list log_record * string) :=
  match message_content d with
  | Some c => s ← trimmed c; Some ([], s)
  | None =>
      match top_response d with
      | Some v => s ← trimmed v; Some ([], s)
      | None =>
          Some ([LogUnexpectedStructure d],
                "Error: Received an unexpected response format from the AI.")
      end
  end.

Definition is_str (v : pyval) : bool :=
  match v with PStr _ => true | _ => false end.

(** A string or an array in which the test [key in v] is false. *)
Definition container_without (key : string) (v : pyval) : bool :=
  match v with
  | PStr s => negb (PyStr.contains key s)
  | PList l => negb (existsb (Py.eq_str key) l)
  | _ => false
  end.

Definition response_applies (items : list (string * pyval)) : bool :=
  match Py.dict_get items "response" with
  | Some v => is_str v
  | None => true
  end.

(** The bodies on which the shape check applies: an object, or a string
    or array that contains neither key; a [message] that is an object,
    or a string or array without "content"; a string where a value is
    selected. *)
Definition applies (d : pyval) : bool :=
  match d with
  | PDict items =>
      match Py.dict_get items "message" with
      | None => response_applies items
      | Some (PDict m) =>
          match Py.dict_get m "content" with
          | Some c => is_str c
          | None => response_applies items
          end
      | Some m => container_without "content" m && response_applies items
      end
  | _ => container_without "message" d && container_without "response" d
  end.

End Normalize.

(** ** Sample data for the examples below *)

Module Sample.

Definition url : string := "http://localhost:11434/api/chat".
Definition model : string := "llama3.2:3b".

(** ["a" * n] *)
Fixpoint letters (n : nat) : string :=
  match n with
  | O => ""
  | S k => String "a" (letters k)
  end.

(** A backend that answers every request with status 200 and a body
    that decodes to [d]. *)
Definition answers (d : pyval) : Request -> result Response :=
  fun _ => Ret (mkResponse 200 "OK" url "" (Ret d)).

(** A backend that answers every request with the response [r]. *)
Definition replies (r : Response) : Request -> result Response :=
  fun _ => Ret r.

(** An HTTP library call that raises [e]. *)
Definition fails (e : exn) : Request -> result Response :=
  fun _ => Raise e.

Definition chat (content : string) : pyval :=
  PDict [("model", PStr model);
         ("message", PDict [("role", PStr "assistant"); ("content", PStr content)]);
         ("done", PBool true)].

End Sample.

(** * Properties *)

(** ** Strings *)

Module PyStrFacts.
Import PyStr.

Lemma app_cons c (s t : string) : String c s +:+ t = String c (s +:+ t).
Proof. reflexivity. Qed.

Lemma app_nil_l (t : string) : "" +:+ t = t.
Proof. reflexivity. Qed.

Lemma app_nil_r (s : string) : s +:+ "" = s.
Proof. induction s as [|c s IH]; [reflexivity|]. rewrite app_cons. by f_equal. Qed.

Lemma app_assoc (s t u : string) : (s +:+ t) +:+ u = s +:+ t +:+ u.
Proof.
  induction s as [|c s IH]; [reflexivity|].
  rewrite !app_cons. by f_equal.
Qed.

Lemma length_app (s t : string) :
  String.length (s +:+ t) = (String.length s + String.length t)%nat.
Proof.
  induction s as [|c s IH]; [reflexivity|].
  rewrite app_cons. simpl. by rewrite IH.
Qed.

Lemma length_slice_to n (s : string) :
  String.length (slice_to n s) = Nat.min n (String.length s).
Proof.
  unfold slice_to. revert s.
  induction n as [|n IH]; intros [|c s]; simpl; try reflexivity.
  by rewrite IH.
Qed.

(** A slice is a prefix of the string it is taken from. *)
Lemma slice_to_prefix n (s : string) : ∃ rest, s = slice_to n s +:+ rest.
Proof.
  unfold slice_to. revert s.
  induction n as [|n IH]; intros [|c s]; simpl.
  - by exists "".
  - by exists (String c s).
  - by exists "".
  - destruct (IH s) as [rest Hrest]. exists rest.
    rewrite app_cons. by f_equal.
Qed.

Lemma rstrip_cons_keep c (s : string) :
  is_space c = false → rstrip (String c s) = String c (rstrip s).
Proof. intros Hc. simpl. rewrite Hc. by destruct (rstrip s). Qed.

Lemma rstrip_cons_nonempty c (s : string) :
  rstrip s ≠ "" → rstrip (String c s) = String c (rstrip s).
Proof. intros Hs. simpl. by destruct (rstrip s). Qed.

(** Stripping on the right stops at a character that is no space. *)
Lemma rstrip_app_keep (x : string) c (b : string) :
  is_space c = false →
  rstrip (x +:+ String c b) = x +:+ String c (rstrip b).
Proof.
  intros Hc. induction x as [|a x IH].
  - rewrite !app_nil_l. by apply rstrip_cons_keep.
  - rewrite !app_cons, rstrip_cons_nonempty; rewrite IH; [done|].
    by destruct x.
Qed.

(** Stripping on the left stops at a character that is no space. *)
Lemma lstrip_app_keep (x : string) c (b : string) :
  is_space c = false →
  lstrip (x +:+ String c b) = lstrip x +:+ String c b.
Proof.
  intros Hc. induction x as [|a x IH].
  - rewrite !app_nil_l. simpl. by rewrite Hc.
  - rewrite app_cons. simpl. destruct (is_space a); [done|].
    by rewrite app_cons.
Qed.

(** A middle part that starts and ends with a character that is no
    space survives [strip] whole. *)
Lemma strip_middle (x d0 y : string) c1 c2 :
  is_space c1 = false → is_space c2 = false →
  strip (x +:+ (String c1 d0 +:+ String c2 "") +:+ y)
  = lstrip x +:+ (String c1 d0 +:+ String c2 "") +:+ rstrip y.
Proof.
  intros H1 H2. unfold strip.
  assert (Hy : ∀ z : string,
    (String c1 d0 +:+ String c2 "") +:+ z = String c1 d0 +:+ String c2 z).
  { intros z. by rewrite app_assoc, (app_cons c2), app_nil_l. }
  rewrite !Hy, (app_cons c1), lstrip_app_keep by done.
  rewrite <- (app_cons c1), <- app_assoc, rstrip_app_keep by done.
  by rewrite app_assoc.
Qed.

Lemma prefix_app (n b : string) : String.prefix n (n +:+ b) = true.
Proof.
  induction n as [|c n IH]; [by destruct b|].
  rewrite app_cons. simpl. by destruct (ascii_dec c c).
Qed.

Lemma contains_prefix (n h : string) :
  String.prefix n h = true → contains n h = true.
Proof. intros H. destruct h; cbn [contains]; by rewrite H. Qed.

(** [contains] finds every occurrence. *)
Lemma contains_app (n a b : string) : contains n (a +:+ n +:+ b) = true.
Proof.
  induction a as [|c a IH].
  - rewrite app_nil_l. apply contains_prefix, prefix_app.
  - rewrite app_cons. cbn [contains]. rewrite IH. apply orb_true_r.
Qed.

End PyStrFacts.

(** ** The preference store *)

Module PrefsFacts.
Import Prefs.

(** The reset branch: the caller's entry is gone, whether or not there
    was one. *)
Lemma set_language_reset (st : gmap Z string) ctx language_name :
  PyStr.lower language_name ∈ reset_keywords →
  store (set_language st ctx language_name) !! author_id ctx = None.
Proof.
  intros Hkw. unfold set_language.
  rewrite bool_decide_true by done. simpl.
  case_bool_decide as Hin.
  - apply lookup_delete_eq.
  - by apply eq_None_not_Some.
Qed.

(** The storing branch. *)
Lemma set_language_store (st : gmap Z string) ctx language_name :
  PyStr.lower language_name ∉ reset_keywords →
  store (set_language st ctx language_name) !! author_id ctx
  = Some ("Answer me in " +:+ language_name +:+ ".").
Proof.
  intros Hkw. unfold set_language.
  rewrite bool_decide_false by done. simpl.
  apply lookup_insert_eq.
Qed.

(** Either branch touches the caller's key only. *)
Lemma set_language_other (st : gmap Z string) ctx language_name u :
  author_id ctx ≠ u →
  store (set_language st ctx language_name) !! u = st !! u.
Proof.
  intros Hne. unfold set_language.
  case_bool_decide; simpl.
  - case_bool_decide; [by apply lookup_delete_ne | done].
  - by apply lookup_insert_ne.
Qed.

Lemma run_other cmds (st : gmap Z string) u :
  Forall (λ cmd : Context * string, author_id cmd.1 ≠ u) cmds →
  run cmds st !! u = st !! u.
Proof.
  unfold run. revert st.
  induction cmds as [|cmd cmds IH]; intros st Hall; [done|].
  inversion Hall as [|? ? Hcmd Hrest]; subst. simpl.
  rewrite IH by done. by apply set_language_other.
Qed.

(** No keyword carries surrounding whitespace. *)
Lemma keywords_stripped kw :
  kw ∈ reset_keywords → PyStr.strip kw = kw.
Proof.
  unfold reset_keywords. rewrite !elem_of_cons, elem_of_nil.
  intros [->|[->|[->|[->|[->|[]]]]]]; reflexivity.
Qed.

(** A name that is no keyword even after trimming is no keyword for the
    test of line 143 either. *)
Lemma not_keyword_untrimmed language_name :
  PyStr.strip (PyStr.lower language_name) ∉ reset_keywords →
  PyStr.lower language_name ∉ reset_keywords.
Proof. intros Hn Hin. apply Hn. by rewrite keywords_stripped. Qed.

End PrefsFacts.

(** [lower] and [strip] do not interfere: lower-casing never makes or
    unmakes a whitespace character. *)
Module LowerFacts.
Import PyStr.

Lemma is_space_lower_char c : is_space (lower_char c) = is_space c.
Proof. destruct c as [[] [] [] [] [] [] [] []]; vm_compute; reflexivity. Qed.

Lemma lstrip_lower (s : string) : lstrip (lower s) = lower (lstrip s).
Proof.
  induction s as [|c s IH]; [done|]. simpl.
  rewrite is_space_lower_char. by destruct (is_space c).
Qed.

Lemma rstrip_lower (s : string) : rstrip (lower s) = lower (rstrip s).
Proof.
  induction s as [|c s IH]; [done|]. simpl.
  rewrite IH, is_space_lower_char.
  destruct (rstrip s) as [|a r]; simpl; [|done].
  by destruct (is_space c).
Qed.

Lemma strip_lower (s : string) : strip (lower s) = lower (strip s).
Proof. unfold strip. by rewrite lstrip_lower, rstrip_lower. Qed.

End LowerFacts.



(** C7.  For every store, user and [language_name] whose lower-cased form
    is not a reset keyword (so in particular a non-empty name),
    [set_language] followed by [get] for that user returns exactly
    "Answer me in {language_name}."; and [get] returns "" for a user who
    has issued no [language] command, whatever the others have issued. *)
Theorem set_then_get_language :
  (∀ (st : gmap Z string) (ctx : Context) (language_name : string),
     PyStr.lower language_name ∉ Prefs.reset_keywords →
     Prefs.get (Prefs.store (Prefs.set_language st ctx language_name))
       (author_id ctx)
     = "Answer me in " +:+ language_name +:+ ".")
  ∧ (∀ (cmds : list (Context * string)) (u : Z),
       Forall (λ cmd : Context * string, author_id cmd.1 ≠ u) cmds →
       Prefs.get (Prefs.run cmds Prefs.initial) u = "").
Proof.
  split.
  - intros st ctx language_name Hkw. unfold Prefs.get.
    by rewrite PrefsFacts.set_language_store.
  - intros cmds u Hall. unfold Prefs.get.
    by rewrite PrefsFacts.run_other.
Qed.

Lemma set_then_get_language_witness :
  ((PyStr.lower "Spanish" ∉ Prefs.reset_keywords)
   ∧ Prefs.get (Prefs.store (Prefs.set_language Prefs.initial
        (mkContext 7 "ana") "Spanish")) 7 = "Answer me in Spanish.")
  ∧ Prefs.get (Prefs.run [(mkContext 7 "ana", "Spanish");
                          (mkContext 8 "bo", "reset")] Prefs.initial) 9 = "".
Proof.
  assert (Hkw : PyStr.lower "Spanish" ∉ Prefs.reset_keywords).
  { apply (bool_decide_eq_false_1 _). vm_compute. reflexivity. }
  split; [split; [exact Hkw|]|].
  - exact (proj1 set_then_get_language Prefs.initial (mkContext 7 "ana")
             "Spanish" Hkw).
  - apply (proj2 set_then_get_language).
    repeat constructor; simpl; lia.
Defined.

(** C10.  [set_language] run by user A, in either branch, leaves the
    entry of every other user B as it was, and so B's following [get];
    and the [ask] command, the only reader of the dictionary, hands it
    back unchanged. *)
Theorem preference_store_frame
    (st : gmap Z string) (ctxA : Context) (language_name : string) (uB : Z) :
  author_id ctxA ≠ uB →
  Prefs.store (Prefs.set_language st ctxA language_name) !! uB = st !! uB
  ∧ Prefs.get (Prefs.store (Prefs.set_language st ctxA language_name)) uB
    = Prefs.get st uB
  ∧ (∀ API_URL OLLAMA_MODEL post ctx prompt_text,
       ask_store (ask_ollama API_URL OLLAMA_MODEL post st ctx prompt_text) = st).
Proof.
  intros Hne.
  pose proof (PrefsFacts.set_language_other st ctxA language_name uB Hne) as Hfr.
  split; [done|]. split.
  - unfold Prefs.get. by rewrite Hfr.
  - intros. unfold ask_ollama.
    by destruct (call_ollama_api _ _ _ _) as [lg [s|e]].
Qed.

Lemma preference_store_frame_witness :
  Prefs.get (Prefs.store (Prefs.set_language
      (<[8%Z := "Answer me in french."]> Prefs.initial)
      (mkContext 7 "ana") "reset")) 8 = "Answer me in french.".
Proof.
  pose proof (preference_store_frame
    (<[8%Z := "Answer me in french."]> Prefs.initial)
    (mkContext 7 "ana") "reset" 8 ltac:(simpl; lia)) as (_ & Hget & _).
  rewrite Hget. vm_compute. reflexivity.
Defined.

(** ** The [ask] command: composition and output adaptation *)

Lemma letters_length n : String.length (Sample.letters n) = n.
Proof. induction n as [|n IH]; simpl; [done|]. by rewrite IH. Qed.

(** The composed prompt, written out: only the two ends are trimmed. *)
Lemma full_prompt_unfold (language_instruction prompt_text : string) :
  full_prompt language_instruction prompt_text
  = PyStr.lstrip (language_instruction +:+ " ") +:+ SHORT_ANSWER_PROMPT
    +:+ PyStr.rstrip (" " +:+ prompt_text).
Proof.
  unfold full_prompt.
  rewrite <- (PyStrFacts.app_assoc language_instruction " ").
  set (d0 := "ive me a short answer but don't mention that I've asked you to make it short").
  change SHORT_ANSWER_PROMPT with (String "G" d0 +:+ String "." "").
  by apply PyStrFacts.strip_middle.
Qed.

(** The composed prompt always contains [SHORT_ANSWER_PROMPT] as a
    substring, and so is never empty. *)
Lemma full_prompt_composition (language_instruction prompt_text : string) :
  full_prompt language_instruction prompt_text
  = PyStr.strip (language_instruction +:+ " " +:+ SHORT_ANSWER_PROMPT
                 +:+ " " +:+ prompt_text)
  ∧ (∃ before after,
       full_prompt language_instruction prompt_text
       = before +:+ SHORT_ANSWER_PROMPT +:+ after)
  ∧ PyStr.contains SHORT_ANSWER_PROMPT
      (full_prompt language_instruction prompt_text) = true
  ∧ full_prompt language_instruction prompt_text ≠ "".
Proof.
  split; [reflexivity|].
  rewrite full_prompt_unfold.
  split; [by eexists _, _|].
  split; [apply PyStrFacts.contains_app|].
  intros Hempty. apply (f_equal String.length) in Hempty.
  rewrite !PyStrFacts.length_app in Hempty.
  change (String.length SHORT_ANSWER_PROMPT) with 78%nat in Hempty.
  simpl in Hempty. lia.
Qed.

(** Two users: A has set "french", B has set nothing. *)
Example two_users_prompts :
  let st := Prefs.store (Prefs.set_language Prefs.initial (mkContext 1 "A") "french") in
  full_prompt (Prefs.get st 1) "hello"
  = "Answer me in french. Give me a short answer but don't mention that I've asked you to make it short. hello"
  ∧ full_prompt (Prefs.get st 2) "hello"
    = "Give me a short answer but don't mention that I've asked you to make it short. hello".
Proof. split; vm_compute; reflexivity. Qed.

(** What [ask_ollama] sends when the relay returned [response_text]. *)
Lemma ask_sends_outgoing API_URL OLLAMA_MODEL post
    (st : gmap Z string) ctx prompt_text lg response_text :
  call_ollama_api API_URL OLLAMA_MODEL post
    (full_prompt (Prefs.get st (author_id ctx)) prompt_text)
  = (lg, Ret response_text) →
  ask_sent (ask_ollama API_URL OLLAMA_MODEL post st ctx prompt_text)
  = [outgoing response_text].
Proof. intros Hcall. unfold ask_ollama. by rewrite Hcall. Qed.

(** The three cases of lines 132-137. *)
Lemma outgoing_three_cases (s : string) :
  ((2000 < String.length s)%nat →
     outgoing s = PyStr.slice_to 1997 s +:+ "..."
     ∧ String.length (PyStr.slice_to 1997 s) = 1997%nat
     ∧ (∃ rest, s = PyStr.slice_to 1997 s +:+ rest)
     ∧ String.length (outgoing s) = 2000%nat)
  ∧ (s = "" → outgoing s = "The AI didn't provide a response.")
  ∧ (s ≠ "" → (String.length s ≤ 2000)%nat → outgoing s = s).
Proof.
  unfold outgoing. split; [|split].
  - intros Hlong. apply Nat.ltb_lt in Hlong. rewrite Hlong.
    split; [done|]. split; [|split].
    + rewrite PyStrFacts.length_slice_to. apply Nat.ltb_lt in Hlong. lia.
    + apply PyStrFacts.slice_to_prefix.
    + rewrite PyStrFacts.length_app, PyStrFacts.length_slice_to.
      apply Nat.ltb_lt in Hlong.
      change (String.length "...") with 3%nat. lia.
  - by intros ->.
  - intros Hne Hlen. apply Nat.ltb_ge in Hlen. rewrite Hlen.
    by rewrite bool_decide_false.
Qed.


(** [ask_ollama] reaches the HTTP library with one request only, the
    one that carries the composed prompt. *)
Lemma ask_depends_on_one_request API_URL OLLAMA_MODEL post post'
    (st : gmap Z string) ctx prompt_text :
  post' (payload API_URL OLLAMA_MODEL
           (full_prompt (Prefs.get st (author_id ctx)) prompt_text))
  = post (payload API_URL OLLAMA_MODEL
            (full_prompt (Prefs.get st (author_id ctx)) prompt_text)) →
  ask_ollama API_URL OLLAMA_MODEL post' st ctx prompt_text
  = ask_ollama API_URL OLLAMA_MODEL post st ctx prompt_text.
Proof.
  intros Hsame. unfold ask_ollama, call_ollama_api, try_suite.
  by rewrite Hsame.
Qed.

(** C8.  The prompt [ask_ollama] composes for the caller's stored
    instruction and the raw text is [strip(instruction + " " +
    SHORT_ANSWER_PROMPT + " " + text)].  It is the content of the one
    request the command makes: the outcome of the command depends on the
    HTTP library through that request alone, an HTTP call that fails with
    the request's content as its detail is answered with that prompt in
    the message, and the command logs it.  It always contains
    [SHORT_ANSWER_PROMPT] as a substring, and so is never empty. *)
Theorem ask_posts_composed_prompt
    API_URL OLLAMA_MODEL post (st : gmap Z string) ctx (prompt_text : string) :
  let language_instruction := Prefs.get st (author_id ctx) in
  let prompt :=
    PyStr.strip (language_instruction +:+ " " +:+ SHORT_ANSWER_PROMPT
                 +:+ " " +:+ prompt_text) in
  (∀ post',
     post' (payload API_URL OLLAMA_MODEL prompt)
     = post (payload API_URL OLLAMA_MODEL prompt) →
     ask_ollama API_URL OLLAMA_MODEL post' st ctx prompt_text
     = ask_ollama API_URL OLLAMA_MODEL post st ctx prompt_text)
  ∧ req_content (payload API_URL OLLAMA_MODEL prompt) = prompt
  ∧ ask_sent (ask_ollama API_URL OLLAMA_MODEL
                (λ request, Raise (mkExn ConnectionError (req_content request)))
                st ctx prompt_text)
    = [outgoing ("Error: Could not connect to the AI service at " +:+ API_URL
                 +:+ ". Details: " +:+ prompt)]
  ∧ ask_logged (ask_ollama API_URL OLLAMA_MODEL post st ctx prompt_text)
    = LogPrompted (author ctx) prompt_text prompt
      :: (call_ollama_api API_URL OLLAMA_MODEL post prompt).1
  ∧ (∃ before after, prompt = before +:+ SHORT_ANSWER_PROMPT +:+ after)
  ∧ PyStr.contains SHORT_ANSWER_PROMPT prompt = true
  ∧ prompt ≠ "".
Proof.
  intros language_instruction prompt.
  destruct (full_prompt_composition language_instruction prompt_text)
    as (_ & Hsub & Hcontains & Hne).
  split; [|split; [|split; [|split]]].
  - intros post' Hsame. by apply ask_depends_on_one_request.
  - reflexivity.
  - reflexivity.
  - unfold ask_ollama. fold language_instruction.
    change (full_prompt language_instruction prompt_text) with prompt.
    by destruct (call_ollama_api API_URL OLLAMA_MODEL post prompt) as [lg [s|e]].
  - done.
Qed.

(** C4.  When the relay returns [s] for the composed prompt, the one
    message [ask_ollama] sends is: the first 1997 characters of [s]
    followed by "..." when [s] is longer than 2000 (2000 characters in
    all); the fixed substitute when [s] is empty; and [s] itself
    otherwise. *)
Theorem ask_sends_adapted_text
    API_URL OLLAMA_MODEL post (st : gmap Z string) ctx prompt_text
    (lg : list log_record) (s : string) :
  call_ollama_api API_URL OLLAMA_MODEL post
    (full_prompt (Prefs.get st (author_id ctx)) prompt_text) = (lg, Ret s) →
  ((2000 < String.length s)%nat →
     ask_sent (ask_ollama API_URL OLLAMA_MODEL post st ctx prompt_text)
     = [PyStr.slice_to 1997 s +:+ "..."]
     ∧ String.length (PyStr.slice_to 1997 s) = 1997%nat
     ∧ (∃ rest, s = PyStr.slice_to 1997 s +:+ rest)
     ∧ String.length (PyStr.slice_to 1997 s +:+ "...") = 2000%nat)
  ∧ (s = "" →
     ask_sent (ask_ollama API_URL OLLAMA_MODEL post st ctx prompt_text)
     = ["The AI didn't provide a response."])
  ∧ (s ≠ "" → (String.length s ≤ 2000)%nat →
     ask_sent (ask_ollama API_URL OLLAMA_MODEL post st ctx prompt_text) = [s]).
Proof.
  intros Hcall.
  rewrite (ask_sends_outgoing _ _ _ _ _ _ _ _ Hcall).
  destruct (outgoing_three_cases s) as (Hlong & Hempty & Hshort).
  split; [|split].
  - intros Hlen. destruct (Hlong Hlen) as (Hout & H1997 & Hprefix & H2000).
    rewrite Hout in H2000 |- *. done.
  - intros Hs. by rewrite (Hempty Hs).
  - intros Hne Hlen. by rewrite (Hshort Hne Hlen).
Qed.

Lemma ask_sends_adapted_text_witness :
  ask_sent (ask_ollama Sample.url Sample.model
              (Sample.answers (Sample.chat (Sample.letters 2500)))
              Prefs.initial (mkContext 7 "ana") "count")
  = [Sample.letters 1997 +:+ "..."]
  ∧ String.length (Sample.letters 1997 +:+ "...") = 2000%nat
  ∧ ask_sent (ask_ollama Sample.url Sample.model
                (Sample.answers (Sample.chat "  "))
                Prefs.initial (mkContext 7 "ana") "count")
    = ["The AI didn't provide a response."]
  ∧ ask_sent (ask_ollama Sample.url Sample.model
                (Sample.answers (Sample.chat "hello"))
                Prefs.initial (mkContext 7 "ana") "count")
    = ["hello"].
Proof.
  destruct (ask_sends_adapted_text Sample.url Sample.model
              (Sample.answers (Sample.chat (Sample.letters 2500)))
              Prefs.initial (mkContext 7 "ana") "count" []
              (Sample.letters 2500) ltac:(vm_compute; reflexivity))
    as (Hlong & _ & _).
  destruct (ask_sends_adapted_text Sample.url Sample.model
              (Sample.answers (Sample.chat "  "))
              Prefs.initial (mkContext 7 "ana") "count" [] ""
              ltac:(vm_compute; reflexivity))
    as (_ & Hempty & _).
  destruct (ask_sends_adapted_text Sample.url Sample.model
              (Sample.answers (Sample.chat "hello"))
              Prefs.initial (mkContext 7 "ana") "count" [] "hello"
              ltac:(vm_compute; reflexivity))
    as (_ & _ & Hshort).
  assert (H2500 : (2000 < String.length (Sample.letters 2500))%nat).
  { rewrite letters_length. lia. }
  destruct (Hlong H2500) as (Hsent & _ & _ & Hlen).
  assert (Hslice : PyStr.slice_to 1997 (Sample.letters 2500) = Sample.letters 1997).
  { vm_compute. reflexivity. }
  rewrite Hslice in Hsent, Hlen.
  split; [exact Hsent|]. split; [exact Hlen|]. split.
  - by apply Hempty.
  - apply Hshort; [discriminate | simpl; lia].
Defined.

(** ** The relay *)

Module RelayFacts.
Import RelayCases.

(** An instance of [Exception] always finds a clause, the last one if
    no other; an exception that is none finds no clause. *)
Lemma select_total e : isinstance e Exception = true → ∃ c, select e = Some c.
Proof.
  destruct e as [cls msg]. unfold select, isinstance. simpl exn_cls.
  destruct cls; vm_compute; eauto; discriminate.
Qed.

Lemma select_none e : select e = None ↔ isinstance e Exception = false.
Proof.
  destruct e as [cls msg]. unfold select, isinstance. simpl exn_cls.
  destruct cls; vm_compute; split; (done || discriminate).
Qed.

Lemma select_timeout e :
  isinstance e Timeout = true → select e = Some ExceptTimeout.
Proof. intros H. unfold select. simpl. by rewrite H. Qed.

Lemma select_request_exception e :
  isinstance e Timeout = false → isinstance e RequestException = true →
  select e = Some ExceptRequestException.
Proof. intros H1 H2. unfold select. simpl. by rewrite H1, H2. Qed.

(** *** The shape check on a decoded body *)

Lemma extract_message_content items m c :
  Py.dict_get items "message" = Some (PDict m) →
  Py.dict_get m "content" = Some (PStr c) →
  extract (PDict items) = ([], Ret (PyStr.strip c)).
Proof.
  intros Hm Hc. unfold extract. simpl. rewrite Hm. simpl.
  by rewrite Hc.
Qed.

Lemma extract_falls_through items :
  lacks_content items →
  extract (PDict items)
  = match Py.dict_get items "response" with
    | Some v => ([], Py.strip v)
    | None =>
        ([LogUnexpectedStructure (PDict items)],
         Ret "Error: Received an unexpected response format from the AI.")
    end.
Proof.
  intros [Hm | (m & Hm & Hc)]; unfold extract; simpl; rewrite Hm; simpl.
  - by destruct (Py.dict_get items "response").
  - rewrite Hc. by destruct (Py.dict_get items "response").
Qed.

(** Whatever the decoded body, the shape check raises nothing but the
    interpreter's [TypeError] and [AttributeError]: each subscript on a
    dict is guarded by the membership test before it. *)
Lemma strip_end d v : extract_end d ([], Py.strip v).
Proof. destruct v; simpl; constructor; auto. Qed.

Local Ltac ended :=
  simpl; first [ apply strip_end | constructor; auto ].

(** Whatever the decoded body, the shape check returns a text, or the
    fixed message, or raises the interpreter's [TypeError] or
    [AttributeError]: each subscript on a dict is guarded by the
    membership test before it. *)
Lemma extract_cases d : extract_end d (extract d).
Proof.
  unfold extract. destruct d as [| | | |s|l|items]; simpl; try ended.
  - destruct (PyStr.contains "message" s); [ended|].
    simpl. destruct (PyStr.contains "response" s); ended.
  - destruct (existsb (Py.eq_str "message") l); [ended|].
    simpl. destruct (existsb (Py.eq_str "response") l); ended.
  - destruct (Py.dict_get items "message") as [m|] eqn:Hm; simpl.
    + destruct m as [| | | |s|l|mitems]; simpl; try ended.
      * destruct (PyStr.contains "content" s); [ended|].
        destruct (Py.dict_get items "response") as [v|]; ended.
      * destruct (existsb (Py.eq_str "content") l); [ended|].
        destruct (Py.dict_get items "response") as [v|]; ended.
      * destruct (Py.dict_get mitems "content") as [c|] eqn:Hc; [ended|].
        destruct (Py.dict_get items "response") as [v|]; ended.
    + destruct (Py.dict_get items "response") as [v|]; ended.
Qed.

Lemma extract_raises d e :
  (extract d).2 = Raise e →
  exn_cls e = TypeError ∨ exn_cls e = AttributeError.
Proof.
  destruct (extract_cases d) as [s| |e' He']; simpl; try done.
  by intros [= <-].
Qed.

Lemma select_interpreter_error e :
  exn_cls e = TypeError ∨ exn_cls e = AttributeError →
  select e = Some ExceptException.
Proof. destruct e as [cls msg]. simpl. by intros [-> | ->]. Qed.

Section WithEnvironment.

Variable API_URL : string.
Variable OLLAMA_MODEL : string.
Variable post : Request -> result Response.

Local Abbreviation relay := (call_ollama_api API_URL OLLAMA_MODEL post).
Local Abbreviation request := (payload API_URL OLLAMA_MODEL).
Local Abbreviation suite := (try_suite API_URL OLLAMA_MODEL post).

(** The relay, by the point at which the [try] suite ends. *)
Lemma relay_post_raises prompt e :
  post (request prompt) = Raise e →
  relay prompt = handled API_URL (mkLocals None None) e.
Proof.
  intros Hp. unfold call_ollama_api, try_suite, handled. rewrite Hp.
  destruct (select e); [|done]. by destruct (handle _ _ _ _).
Qed.

Lemma relay_status_raises prompt r e :
  post (request prompt) = Ret r → Http.raise_for_status r = Raise e →
  relay prompt = handled API_URL (mkLocals (Some r) None) e.
Proof.
  intros Hp Hs. unfold call_ollama_api, try_suite, handled. rewrite Hp, Hs.
  destruct (select e); [|done]. by destruct (handle _ _ _ _).
Qed.

Lemma relay_json_raises prompt r e :
  post (request prompt) = Ret r → Http.raise_for_status r = Ret tt →
  json r = Raise e →
  relay prompt = handled API_URL (mkLocals (Some r) None) e.
Proof.
  intros Hp Hs Hj. unfold call_ollama_api, try_suite, handled.
  rewrite Hp, Hs, Hj.
  destruct (select e); [|done]. by destruct (handle _ _ _ _).
Qed.

Lemma relay_decoded prompt r d :
  post (request prompt) = Ret r → Http.raise_for_status r = Ret tt →
  json r = Ret d →
  relay prompt
  = match extract d with
    | (lg, Ret s) => (lg, Ret s)
    | (lg, Raise e) =>
        let '(lg', res) := handled API_URL (mkLocals (Some r) (Some d)) e in
        (lg ++ lg', res)
    end.
Proof.
  intros Hp Hs Hj. unfold call_ollama_api, try_suite, handled.
  rewrite Hp, Hs, Hj.
  destruct (extract d) as [lg [s|e]]; [done|].
  destruct (select e); [done|]. by rewrite app_nil_r.
Qed.

Lemma raise_for_status_bad r :
  (400 ≤ status_code r < 600)%Z →
  ∃ e, Http.raise_for_status r = Raise e ∧ exn_cls e = HTTPError.
Proof.
  intros Hsc. unfold Http.raise_for_status.
  destruct ((400 <=? status_code r)%Z && (status_code r <? 500)%Z) eqn:H4;
    [eauto|].
  destruct ((500 <=? status_code r)%Z && (status_code r <? 600)%Z) eqn:H5;
    [eauto|].
  lia.
Qed.

Lemma raise_for_status_raises r e :
  Http.raise_for_status r = Raise e → exn_cls e = HTTPError.
Proof.
  unfold Http.raise_for_status.
  repeat case_match; by intros [= <-].
Qed.

(** An undecodable body under [requests] 2.27 and later: the decode
    error is a [RequestException], and the second clause takes it. *)
Lemma undecodable_body_as_request_exception prompt r e :
  post (request prompt) = Ret r → Http.raise_for_status r = Ret tt →
  json r = Raise e → exn_cls e = RequestsJSONDecodeError →
  relay prompt = ([LogRequestFailed e], Ret (could_not_connect API_URL e)).
Proof.
  intros Hp Hs Hj Hcls. rewrite (relay_json_raises _ _ _ Hp Hs Hj).
  unfold handled. rewrite select_request_exception; [done| |];
    unfold isinstance; by rewrite Hcls.
Qed.

(** An undecodable body when the decode error is the plain
    [json.JSONDecodeError] (as [requests] before 2.27 raised it): the
    third clause takes it and logs at most 200 characters. *)
Lemma undecodable_body_as_json_error prompt r e :
  post (request prompt) = Ret r → Http.raise_for_status r = Ret tt →
  json r = Raise e → exn_cls e = JSONDecodeError →
  relay prompt
  = ([LogDecodeFailed (PyStr.slice_to 200 (text r))],
     Ret "Error: Received an invalid response from the AI.")
  ∧ (String.length (PyStr.slice_to 200 (text r)) ≤ 200)%nat.
Proof.
  intros Hp Hs Hj Hcls. rewrite (relay_json_raises _ _ _ Hp Hs Hj).
  split.
  - unfold handled, select, isinstance. by rewrite Hcls.
  - rewrite PyStrFacts.length_slice_to. lia.
Qed.

(** Where the relay does return: every case except an exception that
    reaches the [JSONDecodeError] or [KeyError] clause before the
    local that clause reads is bound, and one that is no instance of
    [Exception]. *)
Lemma relay_returns prompt :
  (∀ e, post (request prompt) = Raise e →
        isinstance e Exception = true
        ∧ select e ≠ Some ExceptJSONDecodeError
        ∧ select e ≠ Some ExceptKeyError) →
  (∀ r e, post (request prompt) = Ret r → json r = Raise e →
          isinstance e Exception = true
          ∧ select e ≠ Some ExceptKeyError) →
  ∃ s, (relay prompt).2 = Ret s.
Proof.
  intros Hpost Hjson.
  destruct (post (request prompt)) as [r|e] eqn:Hp.
  - destruct (Http.raise_for_status r) as [[]|e] eqn:Hs.
    + destruct (json r) as [d|e] eqn:Hj.
      * rewrite (relay_decoded _ _ _ Hp Hs Hj).
        destruct (extract d) as [lg [s|e]] eqn:Hx; [by eexists|].
        unfold handled.
        rewrite (select_interpreter_error e (extract_raises d e ltac:(by rewrite Hx))).
        by eexists.
      * rewrite (relay_json_raises _ _ _ Hp Hs Hj).
        destruct (Hjson r e eq_refl Hj) as [Hexc Hkey].
        unfold handled. destruct (select_total e Hexc) as [c Hc].
        rewrite Hc in *. destruct c; simpl; first [congruence | by eexists].
    + rewrite (relay_status_raises _ _ _ Hp Hs).
      unfold handled, select, isinstance.
      rewrite (raise_for_status_raises _ _ Hs). by eexists.
  - rewrite (relay_post_raises _ _ Hp).
    destruct (Hpost e eq_refl) as (Hexc & H1 & H2).
    unfold handled. destruct (select_total e Hexc) as [c Hc].
    rewrite Hc in *. destruct c; simpl; first [congruence | by eexists].
Qed.

Lemma relay_decoded_cases prompt r d :
  post (request prompt) = Ret r → Http.raise_for_status r = Ret tt →
  json r = Ret d →
  decoded_end d (relay prompt).
Proof.
  intros Hp Hs Hj. rewrite (relay_decoded _ _ _ Hp Hs Hj).
  pose proof (extract_cases d) as Hend.
  destruct (extract d) as [lg res] eqn:Hx.
  inversion Hend as [s| |e He]; subst.
  - by constructor.
  - constructor.
  - unfold handled. rewrite (select_interpreter_error e He). simpl.
    by constructor.
Qed.

End WithEnvironment.

End RelayFacts.

(** C2 (not met by the code).  A response with status 200 whose body is
    no JSON: [Response.json] raises [requests.exceptions.JSONDecodeError],
    which is a [RequestException], so the clause of line 78 takes it
    before the clause of line 81 is tried.  The relay returns the
    "Could not connect" message and logs the error text, not the body. *)
Theorem undecodable_body_reported_as_connection_failure :
  call_ollama_api Sample.url Sample.model
    (Sample.replies
       (mkResponse 200 "OK" Sample.url "<html>busy</html>"
          (Raise (mkExn RequestsJSONDecodeError
                    "Expecting value: line 1 column 1 (char 0)"))))
    "hello"
  = ([LogRequestFailed
        (mkExn RequestsJSONDecodeError "Expecting value: line 1 column 1 (char 0)")],
     Ret "Error: Could not connect to the AI service at http://localhost:11434/api/chat. Details: Expecting value: line 1 column 1 (char 0)").
Proof. vm_compute. reflexivity. Qed.

(** The shape check of lines 66-73 against the normalization of the
    specification. *)
Module NormalizeFacts.
Import Normalize.

Local Ltac ends :=
  simpl;
  first [ by (eexists _, _)
        | by (eexists; split; [reflexivity | auto]) ].

(** On a body where the check applies, [extract] returns what the
    specification's precedence gives; on any other it raises. *)
Lemma extract_normalized d :
  if applies d
  then ∃ lg s, normalized d = Some (lg, s) ∧ extract d = (lg, Ret s)
  else ∃ e, extract d = ([], Raise e)
            ∧ (exn_cls e = TypeError ∨ exn_cls e = AttributeError).
Proof.
  unfold applies, normalized, extract, response_applies.
  destruct d as [| | | |t|l|items]; simpl; try ends.
  - destruct (PyStr.contains "message" t); simpl; [ends|].
    destruct (PyStr.contains "response" t); ends.
  - destruct (existsb (Py.eq_str "message") l); simpl; [ends|].
    destruct (existsb (Py.eq_str "response") l); ends.
  - destruct (Py.dict_get items "message") as [m|] eqn:Hm; simpl.
    + destruct m as [| | | |t|l|mitems]; simpl; try ends.
      * destruct (PyStr.contains "content" t); simpl; [ends|].
        destruct (Py.dict_get items "response") as [v|]; [destruct v|]; ends.
      * destruct (existsb (Py.eq_str "content") l); simpl; [ends|].
        destruct (Py.dict_get items "response") as [v|]; [destruct v|]; ends.
      * destruct (Py.dict_get mitems "content") as [c|] eqn:Hc; simpl.
        -- destruct c; ends.
        -- destruct (Py.dict_get items "response") as [v|]; [destruct v|]; ends.
    + destruct (Py.dict_get items "response") as [v|]; [destruct v|]; ends.
Qed.

Lemma extract_returns_normalized d lg s :
  extract d = (lg, Ret s) → normalized d = Some (lg, s).
Proof.
  intros Hx. pose proof (extract_normalized d) as H.
  destruct (applies d).
  - destruct H as (lg' & s' & Hn & Hx'). congruence.
  - destruct H as (e & Hx' & _). congruence.
Qed.

End NormalizeFacts.

(** C3 (as amended).  For a decoded body on which the shape check
    applies (an object, or a string or array containing neither
    "message" nor "response"; a [message] that is an object, or a string
    or array without "content"; a string wherever a value is selected),
    the relay returns what the precedence of the specification gives:
    the [content] of the [message] object trimmed, else the top-level
    [response] trimmed, else the fixed unexpected-format message.  On
    every other decoded body a test, subscript or [strip] raises and the
    relay returns its catch-all message. *)
Theorem normalization_precedence
    API_URL OLLAMA_MODEL post prompt r (d : pyval) :
  post (payload API_URL OLLAMA_MODEL prompt) = Ret r →
  Http.raise_for_status r = Ret tt →
  json r = Ret d →
  (Normalize.applies d = true →
   ∃ lg s, Normalize.normalized d = Some (lg, s)
           ∧ call_ollama_api API_URL OLLAMA_MODEL post prompt = (lg, Ret s))
  ∧ (Normalize.applies d = false →
     ∃ e, (exn_cls e = TypeError ∨ exn_cls e = AttributeError)
          ∧ call_ollama_api API_URL OLLAMA_MODEL post prompt
            = ([LogUnexpectedError e],
               Ret ("An unexpected error occurred while contacting the AI. Details: "
                    +:+ exn_str e))).
Proof.
  intros Hp Hs Hj.
  rewrite (RelayFacts.relay_decoded _ _ _ _ _ _ Hp Hs Hj).
  pose proof (NormalizeFacts.extract_normalized d) as Hx.
  split; intros Happ; rewrite Happ in Hx.
  - destruct Hx as (lg & s & Hn & ->). by exists lg, s.
  - destruct Hx as (e & -> & Hcls). exists e. split; [done|].
    unfold RelayCases.handled.
    by rewrite (RelayFacts.select_interpreter_error e Hcls).
Qed.

Lemma normalization_precedence_witness :
  call_ollama_api Sample.url Sample.model
    (Sample.answers (PDict [("message", PDict [("content", PStr " X ")]);
                            ("response", PStr "Y")])) "hello"
  = ([], Ret "X")
  ∧ call_ollama_api Sample.url Sample.model
      (Sample.answers (PDict [("message", PStr "hi"); ("response", PStr " Y ")]))
      "hello"
    = ([], Ret "Y")
  ∧ call_ollama_api Sample.url Sample.model (Sample.answers (PList [])) "hello"
    = ([LogUnexpectedStructure (PList [])],
       Ret "Error: Received an unexpected response format from the AI.")
  ∧ ∃ e, call_ollama_api Sample.url Sample.model
           (Sample.answers (PDict [("message", PNone); ("response", PStr "Y")]))
           "hello"
         = ([LogUnexpectedError e],
            Ret ("An unexpected error occurred while contacting the AI. Details: "
                 +:+ exn_str e)).
Proof.
  pose proof (fun d => normalization_precedence Sample.url Sample.model
                (Sample.answers d) "hello"
                (mkResponse 200 "OK" Sample.url "" (Ret d)) d
                eq_refl eq_refl eq_refl) as H.
  split; [|split; [|split]].
  - destruct (proj1 (H (PDict [("message", PDict [("content", PStr " X ")]);
                               ("response", PStr "Y")])) eq_refl)
      as (lg & s & Hn & ->).
    vm_compute in Hn. by injection Hn as <- <-.
  - destruct (proj1 (H (PDict [("message", PStr "hi"); ("response", PStr " Y ")]))
                eq_refl) as (lg & s & Hn & ->).
    vm_compute in Hn. by injection Hn as <- <-.
  - destruct (proj1 (H (PList [])) eq_refl) as (lg & s & Hn & ->).
    vm_compute in Hn. by injection Hn as <- <-.
  - destruct (proj2 (H (PDict [("message", PNone); ("response", PStr "Y")]))
                eq_refl) as (e & _ & ->).
    by exists e.
Defined.

(** C3 as stated fails.  The body [{"message": null, "response": "Y"}]
    has no [message] object with a [content] field and has a top-level
    [response], yet the relay does not return "Y": the membership test on
    [None] raises and the last clause answers.  The body [5] matches
    neither shape, yet the relay does not return the unexpected-format
    message. *)
Lemma null_message_blocks_fallback :
  call_ollama_api Sample.url Sample.model
    (Sample.answers (PDict [("message", PNone); ("response", PStr "Y")])) "hello"
  = ([LogUnexpectedError
        (mkExn TypeError "argument of type 'NoneType' is not iterable")],
     Ret "An unexpected error occurred while contacting the AI. Details: argument of type 'NoneType' is not iterable")
  ∧ (call_ollama_api Sample.url Sample.model
       (Sample.answers (PDict [("message", PNone); ("response", PStr "Y")]))
       "hello").2 ≠ Ret "Y"
  ∧ (call_ollama_api Sample.url Sample.model (Sample.answers (PInt 5)) "hello").2
    = Ret "An unexpected error occurred while contacting the AI. Details: argument of type 'int' is not iterable"
  ∧ (call_ollama_api Sample.url Sample.model (Sample.answers (PInt 5)) "hello").2
    ≠ Ret "Error: Received an unexpected response format from the AI.".
Proof.
  split; [vm_compute; reflexivity|].
  split; [vm_compute; discriminate|].
  split; [vm_compute; reflexivity|].
  vm_compute; discriminate.
Qed.

(** C5 (not met by the code).  When the HTTP call itself raises a
    [KeyError], the clause of line 84 takes it and formats
    [response_data], a local the [try] suite has not bound yet: the
    handler raises [UnboundLocalError], which leaves [call_ollama_api]. *)
Theorem key_error_before_binding_escapes :
  call_ollama_api Sample.url Sample.model
    (Sample.fails (mkExn KeyError "'connection'")) "hello"
  = ([], Raise (unbound "response_data"))
  ∧ ask_raised (ask_ollama Sample.url Sample.model
                  (Sample.fails (mkExn KeyError "'connection'"))
                  Prefs.initial (mkContext 7 "ana") "hello")
    = Some (unbound "response_data")
  ∧ ask_sent (ask_ollama Sample.url Sample.model
                (Sample.fails (mkExn KeyError "'connection'"))
                Prefs.initial (mkContext 7 "ana") "hello") = [].
Proof. repeat split; vm_compute; reflexivity. Qed.

(** The fixed texts of the relay differ from one another at a character
    that does not depend on the endpoint or on the error detail. *)
Lemma could_not_connect_not_incomplete API_URL e :
  RelayCases.could_not_connect API_URL e
  ≠ "Error: Received an incomplete response format from the AI.".
Proof. intros H. cbv in H. discriminate H. Qed.

Lemma unexpected_error_not_incomplete e :
  RelayCases.unexpected_error e
  ≠ "Error: Received an incomplete response format from the AI.".
Proof. intros H. cbv in H. discriminate H. Qed.

(** C6 (as amended).  Once the body is decoded, whatever JSON value it
    is, the [KeyError] clause of line 84 is never entered: an exception
    raised by the [try] suite selects another clause, and the log never
    holds the record of line 85.  The text of line 86 is returned only
    when it is the backend's own [content] or [response] text, trimmed,
    relayed through one of the two recognised shapes. *)
Theorem key_error_clause_unreachable
    API_URL OLLAMA_MODEL post prompt r (d : pyval) :
  post (payload API_URL OLLAMA_MODEL prompt) = Ret r →
  json r = Ret d →
  (∀ e, (try_suite API_URL OLLAMA_MODEL post prompt).2.2 = Raise e →
        select e ≠ Some ExceptKeyError)
  ∧ (∀ e d', LogMissingKey e d'
             ∉ (call_ollama_api API_URL OLLAMA_MODEL post prompt).1)
  ∧ ((call_ollama_api API_URL OLLAMA_MODEL post prompt).2
     = Ret "Error: Received an incomplete response format from the AI." →
     extract d
     = ([], Ret "Error: Received an incomplete response format from the AI.")
     ∧ ∃ text,
         (Normalize.message_content d = Some (PStr text)
          ∨ (Normalize.message_content d = None
             ∧ Normalize.top_response d = Some (PStr text)))
         ∧ PyStr.strip text
           = "Error: Received an incomplete response format from the AI.").
Proof.
  assert (Hecho : ∀ t,
    extract d = ([], Ret t) →
    t = "Error: Received an incomplete response format from the AI." →
    ∃ text,
      (Normalize.message_content d = Some (PStr text)
       ∨ (Normalize.message_content d = None
          ∧ Normalize.top_response d = Some (PStr text)))
      ∧ PyStr.strip text = t).
  { intros t Hx Ht. apply NormalizeFacts.extract_returns_normalized in Hx.
    unfold Normalize.normalized in Hx.
    destruct (Normalize.message_content d) as [c|].
    - destruct c; simpl in Hx; try discriminate Hx.
      injection Hx as <-. eauto.
    - destruct (Normalize.top_response d) as [v|].
      + destruct v; simpl in Hx; try discriminate Hx.
        injection Hx as <-. eauto.
      + discriminate Hx. }
  intros Hp Hj.
  destruct (Http.raise_for_status r) as [[]|e0] eqn:Hs.
  - pose proof (RelayFacts.relay_decoded_cases API_URL OLLAMA_MODEL post
                  prompt r d Hp Hs Hj) as Hend.
    split; [|split].
    + intros e. unfold try_suite. rewrite Hp, Hs, Hj. simpl. intros He.
      by rewrite (RelayFacts.select_interpreter_error e
                    (RelayFacts.extract_raises d e He)).
    + intros e d'. inversion Hend as [s Hx Heq| |e1 He1 Heq]; simpl.
      * apply not_elem_of_nil.
      * rewrite list_elem_of_singleton. discriminate.
      * rewrite list_elem_of_singleton. discriminate.
    + inversion Hend as [s Hx Heq| |e1 He1 Heq]; simpl.
      * intros [= ->]. split; [exact Hx|]. by apply (Hecho _ Hx).
      * discriminate.
      * intros Hbad. apply (inj Ret) in Hbad.
        by apply unexpected_error_not_incomplete in Hbad.
  - pose proof (RelayFacts.raise_for_status_raises r e0 Hs) as Hcls.
    assert (Hsel : select e0 = Some ExceptRequestException).
    { unfold select, isinstance. by rewrite Hcls. }
    rewrite (RelayFacts.relay_status_raises API_URL OLLAMA_MODEL post
               prompt r e0 Hp Hs).
    unfold RelayCases.handled. rewrite Hsel. simpl.
    split; [|split].
    + intros e. unfold try_suite. rewrite Hp, Hs. simpl.
      intros [= <-]. by rewrite Hsel.
    + intros e d'. rewrite list_elem_of_singleton. discriminate.
    + intros Hbad. apply (inj Ret) in Hbad.
      by apply could_not_connect_not_incomplete in Hbad.
Qed.

Lemma key_error_clause_unreachable_witness :
  LogMissingKey (mkExn KeyError "'content'") (PDict [("message", PDict [])])
  ∉ (call_ollama_api Sample.url Sample.model
       (Sample.answers (PDict [("message", PDict [])])) "hello").1.
Proof.
  destruct (key_error_clause_unreachable Sample.url Sample.model
              (Sample.answers (PDict [("message", PDict [])])) "hello"
              (mkResponse 200 "OK" Sample.url "" (Ret _)) _ eq_refl eq_refl)
    as (_ & Hlog & _).
  apply Hlog.
Defined.

(** C6 as stated fails in its last part: the body [{"response": "Error:
    Received an incomplete response format from the AI."}] makes the
    relay return that very text, through the [response] shape of line
    70. *)
Lemma incomplete_text_echoed :
  call_ollama_api Sample.url Sample.model
    (Sample.answers
       (PDict [("response",
                PStr "Error: Received an incomplete response format from the AI.")]))
    "hello"
  = ([], Ret "Error: Received an incomplete response format from the AI.").
Proof. vm_compute. reflexivity. Qed.

(** C9 (as amended).  When the HTTP call raises a [RequestException]
    that is no [Timeout] (a failed name lookup, a refused connection),
    and when the response carries a status from 400 to 599, the relay
    returns "Error: Could not connect to the AI service at {API_URL}.
    Details: {e}"; when the call raises a [Timeout] it returns the fixed
    timeout text, which is never the other one. *)
Theorem transport_failure_messages API_URL OLLAMA_MODEL post prompt :
  (∀ e, post (payload API_URL OLLAMA_MODEL prompt) = Raise e →
        isinstance e RequestException = true →
        isinstance e Timeout = false →
        call_ollama_api API_URL OLLAMA_MODEL post prompt
        = ([LogRequestFailed e],
           Ret ("Error: Could not connect to the AI service at " +:+ API_URL
                +:+ ". Details: " +:+ exn_str e)))
  ∧ (∀ r, post (payload API_URL OLLAMA_MODEL prompt) = Ret r →
          (400 ≤ status_code r < 600)%Z →
          ∃ e, Http.raise_for_status r = Raise e ∧ exn_cls e = HTTPError
               ∧ call_ollama_api API_URL OLLAMA_MODEL post prompt
                 = ([LogRequestFailed e],
                    Ret ("Error: Could not connect to the AI service at "
                         +:+ API_URL +:+ ". Details: " +:+ exn_str e)))
  ∧ (∀ e, post (payload API_URL OLLAMA_MODEL prompt) = Raise e →
          isinstance e Timeout = true →
          call_ollama_api API_URL OLLAMA_MODEL post prompt
          = ([LogTimedOut API_URL], Ret "Error: The request to the AI timed out."))
  ∧ (∀ detail,
       "Error: The request to the AI timed out."
       ≠ "Error: Could not connect to the AI service at " +:+ API_URL
         +:+ ". Details: " +:+ detail).
Proof.
  split; [|split; [|split]].
  - intros e Hp Hreq Htime.
    rewrite (RelayFacts.relay_post_raises _ _ _ _ _ Hp).
    unfold RelayCases.handled.
    by rewrite (RelayFacts.select_request_exception e Htime Hreq).
  - intros r Hp Hstatus.
    destruct (RelayFacts.raise_for_status_bad r Hstatus) as (e & Hs & Hcls).
    exists e. split; [done|]. split; [done|].
    rewrite (RelayFacts.relay_status_raises _ _ _ _ _ _ Hp Hs).
    unfold RelayCases.handled, select, isinstance. by rewrite Hcls.
  - intros e Hp Htime.
    rewrite (RelayFacts.relay_post_raises _ _ _ _ _ Hp).
    unfold RelayCases.handled.
    by rewrite (RelayFacts.select_timeout e Htime).
  - intros detail H. cbv in H. discriminate H.
Qed.

Lemma transport_failure_messages_witness :
  call_ollama_api Sample.url Sample.model
    (Sample.fails (mkExn ConnectionError "Connection refused")) "hello"
  = ([LogRequestFailed (mkExn ConnectionError "Connection refused")],
     Ret "Error: Could not connect to the AI service at http://localhost:11434/api/chat. Details: Connection refused")
  ∧ (call_ollama_api Sample.url Sample.model
       (Sample.replies (mkResponse 503 "Service Unavailable" Sample.url ""
                          (Ret (Sample.chat "late")))) "hello").2
    = Ret "Error: Could not connect to the AI service at http://localhost:11434/api/chat. Details: 503 Server Error: Service Unavailable for url: http://localhost:11434/api/chat"
  ∧ call_ollama_api Sample.url Sample.model
      (Sample.fails (mkExn ReadTimeout "Read timed out. (read timeout=120)")) "hello"
    = ([LogTimedOut Sample.url], Ret "Error: The request to the AI timed out.").
Proof.
  destruct (transport_failure_messages Sample.url Sample.model
              (Sample.fails (mkExn ConnectionError "Connection refused")) "hello")
    as (Hfail & _ & _ & _).
  destruct (transport_failure_messages Sample.url Sample.model
              (Sample.replies (mkResponse 503 "Service Unavailable" Sample.url ""
                                 (Ret (Sample.chat "late")))) "hello")
    as (_ & Hstatus & _ & _).
  destruct (transport_failure_messages Sample.url Sample.model
              (Sample.fails (mkExn ReadTimeout "Read timed out. (read timeout=120)"))
              "hello")
    as (_ & _ & Htimeout & _).
  split; [|split].
  - exact (Hfail _ eq_refl eq_refl eq_refl).
  - destruct (Hstatus _ eq_refl ltac:(simpl; lia)) as (e & Hs & _ & Hcall).
    rewrite Hcall. injection Hs as <-. vm_compute. reflexivity.
  - exact (Htimeout _ eq_refl eq_refl).
Defined.

(** C9 as stated fails for a status that is neither 2xx nor 4xx/5xx:
    [raise_for_status] lets status 300 pass, the body is decoded, and the
    relay returns the backend's text instead of the "Could not connect"
    message. *)
Lemma status_300_is_relayed :
  ¬ (200 ≤ 300 < 300)%Z
  ∧ call_ollama_api Sample.url Sample.model
      (Sample.replies (mkResponse 300 "Multiple Choices" Sample.url
                         ""
                         (Ret (PDict [("response", PStr "hi")])))) "hello"
    = ([], Ret "hi").
Proof. split; [lia | vm_compute; reflexivity]. Qed.

(** * Further properties *)

(** ** Sequences of [language] commands *)

Module HistoryFacts.
Import Prefs History.

(** The store after one command, in one formula: the guard of line 144
    only skips a [del] that would find nothing. *)
Lemma store_set_language (st : gmap Z string) ctx name :
  store (set_language st ctx name)
  = match entry_of name with
    | Some i => <[author_id ctx := i]> st
    | None => delete (author_id ctx) st
    end.
Proof.
  unfold set_language, entry_of. case_bool_decide; simpl; [|done].
  case_bool_decide as Hin; [done|].
  symmetry. apply delete_id. by apply eq_None_not_Some.
Qed.

Lemma lookup_set_language (st : gmap Z string) ctx name u :
  store (set_language st ctx name) !! u
  = if bool_decide (author_id ctx = u) then entry_of name else st !! u.
Proof.
  rewrite store_set_language.
  case_bool_decide as Hu; destruct (entry_of name) as [i|]; subst.
  - apply lookup_insert_eq.
  - apply lookup_delete_eq.
  - by apply lookup_insert_ne.
  - by apply lookup_delete_ne.
Qed.

(** Everything [set_language] returns besides the store is a function
    of the context and the name. *)
Lemma set_language_outputs (st st' : gmap Z string) ctx name :
  store (set_language st ctx name) = store (set_language st' ctx name) →
  set_language st ctx name = set_language st' ctx name.
Proof.
  unfold set_language. case_bool_decide; simpl; by intros ->.
Qed.

Lemma entry_of_form name i :
  entry_of name = Some i →
  i = "Answer me in " +:+ name +:+ "."
  ∧ PyStr.lower name ∉ reset_keywords.
Proof. unfold entry_of. case_bool_decide; [done|]. by intros [= <-]. Qed.

Lemma run_lookup (cmds : list (Context * string)) (st : gmap Z string) u :
  run cmds st !! u
  = match last_name u cmds with
    | Some name => entry_of name
    | None => st !! u
    end.
Proof.
  unfold run. revert st.
  induction cmds as [|[ctx name] cmds IH]; intros st; [done|].
  simpl. rewrite IH.
  destruct (last_name u cmds) as [later|]; [done|].
  rewrite lookup_set_language. by case_bool_decide.
Qed.

End HistoryFacts.

(** X1.  For one user only the last [language] command counts: running
    a second command after a first gives, in every respect (store,
    reply, log), what the second alone gives.  In particular a repeated
    command changes nothing. *)
Theorem language_overwrites
    (st : gmap Z string) (ctx1 ctx2 : Context) (name1 name2 : string) :
  author_id ctx1 = author_id ctx2 →
  Prefs.set_language (Prefs.store (Prefs.set_language st ctx1 name1)) ctx2 name2
  = Prefs.set_language st ctx2 name2.
Proof.
  intros Hu. apply HistoryFacts.set_language_outputs.
  rewrite !HistoryFacts.store_set_language, Hu.
  destruct (History.entry_of name2) as [i2|];
    destruct (History.entry_of name1) as [i1|].
  - apply insert_insert_eq.
  - apply insert_delete_eq.
  - apply delete_insert_eq.
  - apply delete_delete_eq.
Qed.

Lemma language_overwrites_witness :
  Prefs.set_language
    (Prefs.store (Prefs.set_language Prefs.initial (mkContext 7 "ana") "french"))
    (mkContext 7 "ana") "Spanish"
  = Prefs.set_language Prefs.initial (mkContext 7 "ana") "Spanish".
Proof.
  apply (language_overwrites Prefs.initial (mkContext 7 "ana")
           (mkContext 7 "ana") "french" "Spanish").
  reflexivity.
Defined.

(** X2.  Setting any language and then resetting brings the dictionary
    back to exactly what it was, for a user who had no entry before. *)
Theorem set_then_reset_round_trip
    (st : gmap Z string) (ctx : Context) (name keyword : string) :
  st !! author_id ctx = None →
  PyStr.lower keyword ∈ Prefs.reset_keywords →
  Prefs.store (Prefs.set_language
                 (Prefs.store (Prefs.set_language st ctx name)) ctx keyword)
  = st.
Proof.
  intros Hnone Hkw.
  rewrite !HistoryFacts.store_set_language.
  unfold History.entry_of at 1. rewrite bool_decide_true by done.
  destruct (History.entry_of name) as [i|].
  - rewrite delete_insert_eq. by apply delete_id.
  - rewrite delete_delete_eq. by apply delete_id.
Qed.

Lemma set_then_reset_round_trip_witness :
  Prefs.store (Prefs.set_language
     (Prefs.store (Prefs.set_language
        (<[8%Z := "Answer me in french."]> Prefs.initial)
        (mkContext 7 "ana") "Spanish"))
     (mkContext 7 "ana") "RESET")
  = <[8%Z := "Answer me in french."]> Prefs.initial.
Proof.
  apply (set_then_reset_round_trip
           (<[8%Z := "Answer me in french."]> Prefs.initial)
           (mkContext 7 "ana") "Spanish" "RESET").
  - vm_compute. reflexivity.
  - apply (bool_decide_unpack _). vm_compute. exact I.
Defined.

(** X3.  Commands of two different users commute: the dictionary they
    leave does not depend on which of the two ran first. *)
Theorem language_commands_commute
    (st : gmap Z string) (ctxA ctxB : Context) (nameA nameB : string) :
  author_id ctxA ≠ author_id ctxB →
  Prefs.store (Prefs.set_language
                 (Prefs.store (Prefs.set_language st ctxA nameA)) ctxB nameB)
  = Prefs.store (Prefs.set_language
                   (Prefs.store (Prefs.set_language st ctxB nameB)) ctxA nameA).
Proof.
  intros Hne. rewrite !HistoryFacts.store_set_language.
  destruct (History.entry_of nameA) as [iA|];
    destruct (History.entry_of nameB) as [iB|].
  - by apply insert_insert_ne.
  - by rewrite delete_insert_ne.
  - by rewrite delete_insert_ne.
  - apply delete_delete.
Qed.

Lemma language_commands_commute_witness :
  Prefs.store (Prefs.set_language
     (Prefs.store (Prefs.set_language Prefs.initial (mkContext 7 "ana") "french"))
     (mkContext 8 "bo") "en")
  = Prefs.store (Prefs.set_language
       (Prefs.store (Prefs.set_language Prefs.initial (mkContext 8 "bo") "en"))
       (mkContext 7 "ana") "french").
Proof.
  apply (language_commands_commute Prefs.initial (mkContext 7 "ana")
           (mkContext 8 "bo") "french" "en").
  simpl. lia.
Defined.

(** X4.  After any history of [language] commands, a user's entry is
    decided by that user's last command alone: none if it named a reset
    keyword, the instruction for its name otherwise; a user who issued
    none keeps the entry the history started from. *)
Theorem history_decided_by_last_command
    (cmds : list (Context * string)) (st : gmap Z string) (u : Z) :
  Prefs.run cmds st !! u
  = match History.last_name u cmds with
    | Some name => History.entry_of name
    | None => st !! u
    end.
Proof.
  unfold Prefs.run. revert st.
  induction cmds as [|[ctx name] cmds IH]; intros st; [done|].
  simpl. rewrite IH.
  destruct (History.last_name u cmds) as [later|]; [done|].
  rewrite HistoryFacts.lookup_set_language. by case_bool_decide.
Qed.

(** X5.  In a dictionary built from the empty one by [language]
    commands, every entry is "Answer me in {name}." for a name that is
    no reset keyword; so [get] returns "" exactly for the users without
    an entry. *)
Theorem stored_instructions_well_formed
    (cmds : list (Context * string)) (u : Z) :
  (∀ i, Prefs.run cmds Prefs.initial !! u = Some i →
        ∃ name, i = "Answer me in " +:+ name +:+ "."
                ∧ PyStr.lower name ∉ Prefs.reset_keywords)
  ∧ (Prefs.get (Prefs.run cmds Prefs.initial) u = ""
     ↔ Prefs.run cmds Prefs.initial !! u = None).
Proof.
  assert (Hform : ∀ i, Prefs.run cmds Prefs.initial !! u = Some i →
            ∃ name, i = "Answer me in " +:+ name +:+ "."
                    ∧ PyStr.lower name ∉ Prefs.reset_keywords).
  { intros i. rewrite HistoryFacts.run_lookup.
    destruct (History.last_name u cmds) as [name|]; [|done].
    intros Hi. exists name. by apply HistoryFacts.entry_of_form. }
  split; [exact Hform|].
  unfold Prefs.get.
  destruct (Prefs.run cmds Prefs.initial !! u) as [i|] eqn:Hi; simpl; [|done].
  destruct (Hform i eq_refl) as (name & -> & _).
  split; [|done]. intros Hbad. discriminate Hbad.
Qed.

(** ** More on [strip] *)

Module StripFacts.
Import PyStr Blank.

Lemma lstrip_head (s : string) :
  lstrip s = "" ∨ ∃ c r, lstrip s = String c r ∧ is_space c = false.
Proof.
  induction s as [|c s IH]; simpl; [by left|].
  destruct (is_space c) eqn:Hc; [done|]. right. by exists c, s.
Qed.

Lemma rstrip_idempotent (s : string) : rstrip (rstrip s) = rstrip s.
Proof.
  induction s as [|c s IH]; [done|]. simpl.
  destruct (rstrip s) as [|c' r'] eqn:Hr.
  - destruct (is_space c) eqn:Hc; [done|]. simpl. by rewrite Hc.
  - rewrite PyStrFacts.rstrip_cons_nonempty; rewrite IH; done.
Qed.

(** What [strip] returns is not changed by stripping again. *)
Lemma strip_idempotent (s : string) : strip (strip s) = strip s.
Proof.
  unfold strip. destruct (lstrip_head s) as [-> | (c & r & -> & Hc)]; [done|].
  rewrite (PyStrFacts.rstrip_cons_keep c r Hc). simpl lstrip. rewrite Hc.
  rewrite <- (PyStrFacts.rstrip_cons_keep c r Hc).
  apply rstrip_idempotent.
Qed.

Lemma lstrip_blank (s : string) : lstrip s = "" ↔ blank s = true.
Proof.
  induction s as [|c s IH]; simpl; [done|].
  destruct (is_space c); simpl; [done|]. split; discriminate.
Qed.

Lemma rstrip_nil_cons c (s : string) : rstrip (String c s) = "" → is_space c = true.
Proof. simpl. destruct (rstrip s); destruct (is_space c); done. Qed.

(** [strip] returns the empty string exactly on blank texts. *)
Lemma strip_blank (s : string) : strip s = "" ↔ blank s = true.
Proof.
  rewrite <- lstrip_blank. unfold strip. split; [|by intros ->].
  destruct (lstrip_head s) as [-> | (c & r & -> & Hc)]; [done|].
  intros Hr. apply rstrip_nil_cons in Hr. congruence.
Qed.

End StripFacts.

(** The text typed after the command name reaches [set_language]
    stripped: typing " Default " resets like typing "default". *)
Lemma typed_keyword_clears_entry (st : gmap Z string) ctx (typed : string) :
  PyStr.strip (PyStr.lower typed) ∈ Prefs.reset_keywords →
  Prefs.get (Prefs.store (Prefs.set_language st ctx (PyStr.strip typed)))
    (author_id ctx) = "".
Proof.
  intros Hkw. rewrite LowerFacts.strip_lower in Hkw.
  unfold Prefs.get.
  by rewrite (PrefsFacts.set_language_reset st ctx (PyStr.strip typed) Hkw).
Qed.

Example typed_padded_default :
  Prefs.get (Prefs.store (Prefs.set_language
      (<[7%Z := "Answer me in Spanish."]> Prefs.initial)
      (mkContext 7 "ana") (PyStr.strip " Default "))) 7 = "".
Proof. vm_compute. reflexivity. Qed.

(** ** The [ask] command, end to end *)

Lemma outgoing_bounds (s : string) :
  outgoing s ≠ "" ∧ (String.length (outgoing s) ≤ 2000)%nat.
Proof.
  unfold outgoing.
  destruct (2000 <? String.length s)%nat eqn:Hlong.
  - apply Nat.ltb_lt in Hlong.
    assert (Hlen : String.length (PyStr.slice_to 1997 s +:+ "...") = 2000%nat).
    { rewrite PyStrFacts.length_app, PyStrFacts.length_slice_to.
      change (String.length "...") with 3%nat. lia. }
    split; [|lia]. intros Hnil. rewrite Hnil in Hlen. discriminate Hlen.
  - apply Nat.ltb_ge in Hlong. case_bool_decide as Hnil.
    + split; [discriminate|]. vm_compute. lia.
    + done.
Qed.

(** X6.  Whatever the backend does, a message the [ask] command sends is
    never empty and never longer than 2000 characters. *)
Theorem ask_messages_within_limit
    API_URL OLLAMA_MODEL post (st : gmap Z string) ctx prompt_text :
  Forall (λ m : string, m ≠ "" ∧ (String.length m ≤ 2000)%nat)
    (ask_sent (ask_ollama API_URL OLLAMA_MODEL post st ctx prompt_text)).
Proof.
  unfold ask_ollama.
  destruct (call_ollama_api _ _ _ _) as [lg [s|e]]; simpl.
  - constructor; [apply outgoing_bounds | constructor].
  - constructor.
Qed.



(** X8.  When the backend answers with the chat shape, the user is sent
    the stripped content, cut to the limit if need be; when that content
    is blank, the user is sent the fixed "no response" line. *)
Theorem ask_relays_stripped_content
    API_URL OLLAMA_MODEL post (st : gmap Z string) ctx prompt_text
    r (items m : list (string * pyval)) (content : string) :
  post (payload API_URL OLLAMA_MODEL
          (full_prompt (Prefs.get st (author_id ctx)) prompt_text)) = Ret r →
  Http.raise_for_status r = Ret tt →
  json r = Ret (PDict items) →
  Py.dict_get items "message" = Some (PDict m) →
  Py.dict_get m "content" = Some (PStr content) →
  ask_sent (ask_ollama API_URL OLLAMA_MODEL post st ctx prompt_text)
  = [outgoing (PyStr.strip content)]
  ∧ (Blank.blank content = true →
     ask_sent (ask_ollama API_URL OLLAMA_MODEL post st ctx prompt_text)
     = ["The AI didn't provide a response."]).
Proof.
  intros Hp Hs Hj Hm Hc.
  assert (Hsent :
    ask_sent (ask_ollama API_URL OLLAMA_MODEL post st ctx prompt_text)
    = [outgoing (PyStr.strip content)]).
  { apply (ask_sends_outgoing _ _ _ _ _ _ []).
    rewrite (RelayFacts.relay_decoded _ _ _ _ _ _ Hp Hs Hj).
    by rewrite (RelayFacts.extract_message_content _ _ _ Hm Hc). }
  split; [done|].
  intros Hblank. rewrite Hsent.
  apply StripFacts.strip_blank in Hblank. by rewrite Hblank.
Qed.

Lemma ask_relays_stripped_content_witness :
  ask_sent (ask_ollama Sample.url Sample.model
              (Sample.answers (Sample.chat "  Paris.  "))
              Prefs.initial (mkContext 7 "ana") "capital of France?")
  = ["Paris."]
  ∧ ask_sent (ask_ollama Sample.url Sample.model
                (Sample.answers (Sample.chat "   "))
                Prefs.initial (mkContext 7 "ana") "capital of France?")
    = ["The AI didn't provide a response."].
Proof.
  destruct (ask_relays_stripped_content Sample.url Sample.model
              (Sample.answers (Sample.chat "  Paris.  "))
              Prefs.initial (mkContext 7 "ana") "capital of France?"
              (mkResponse 200 "OK" Sample.url "" (Ret (Sample.chat "  Paris.  ")))
              _ _ "  Paris.  " eq_refl eq_refl eq_refl eq_refl eq_refl)
    as [Hsent _].
  destruct (ask_relays_stripped_content Sample.url Sample.model
              (Sample.answers (Sample.chat "   "))
              Prefs.initial (mkContext 7 "ana") "capital of France?"
              (mkResponse 200 "OK" Sample.url "" (Ret (Sample.chat "   ")))
              _ _ "   " eq_refl eq_refl eq_refl eq_refl eq_refl)
    as [_ Hblank].
  split.
  - etrans; [exact Hsent | vm_compute; reflexivity].
  - exact (Hblank eq_refl).
Defined.

(** X10.  A [language] command of user A changes nothing in what an
    [ask] of another user B sends, logs or raises. *)
Theorem ask_unaffected_by_other_user
    API_URL OLLAMA_MODEL post (st : gmap Z string)
    (ctxA ctxB : Context) (language_name prompt_text : string) :
  author_id ctxA ≠ author_id ctxB →
  let before := ask_ollama API_URL OLLAMA_MODEL post st ctxB prompt_text in
  let after :=
    ask_ollama API_URL OLLAMA_MODEL post
      (Prefs.store (Prefs.set_language st ctxA language_name)) ctxB prompt_text in
  ask_sent after = ask_sent before
  ∧ ask_logged after = ask_logged before
  ∧ ask_raised after = ask_raised before.
Proof.
  intros Hne. unfold ask_ollama, Prefs.get.
  rewrite (PrefsFacts.set_language_other st ctxA language_name _ Hne).
  by destruct (call_ollama_api _ _ _ _) as [lg [s|e]].
Qed.

Lemma ask_unaffected_by_other_user_witness :
  ask_sent (ask_ollama Sample.url Sample.model
              (Sample.answers (Sample.chat "Bonjour"))
              (Prefs.store (Prefs.set_language Prefs.initial
                              (mkContext 7 "ana") "french"))
              (mkContext 8 "bo") "hello")
  = ask_sent (ask_ollama Sample.url Sample.model
                (Sample.answers (Sample.chat "Bonjour"))
                Prefs.initial (mkContext 8 "bo") "hello").
Proof.
  apply (ask_unaffected_by_other_user Sample.url Sample.model
           (Sample.answers (Sample.chat "Bonjour")) Prefs.initial
           (mkContext 7 "ana") (mkContext 8 "bo") "french" "hello").
  simpl. lia.
Defined.

(** ** More on the relay *)

Module RelayMore.
Import RelayCases.

Lemma strip_ret v s : Py.strip v = Ret s → ∃ x, s = PyStr.strip x.
Proof. destruct v; simpl; try done. intros [= <-]. eauto. Qed.

Local Ltac text :=
  simpl;
  first [ done
        | intros [= <-]; by left
        | intros Hs; right; exact (strip_ret _ _ Hs) ].

(** A text the shape check returns is the fixed message or the result
    of a [strip]. *)
Lemma extract_text d s :
  (extract d).2 = Ret s →
  s = unexpected_format ∨ ∃ x, s = PyStr.strip x.
Proof.
  unfold extract. destruct d as [| | | |t|l|items]; simpl; try text.
  - destruct (PyStr.contains "message" t); [text|].
    simpl. destruct (PyStr.contains "response" t); text.
  - destruct (existsb (Py.eq_str "message") l); [text|].
    simpl. destruct (existsb (Py.eq_str "response") l); text.
  - destruct (Py.dict_get items "message") as [m|] eqn:Hm; simpl.
    + destruct m as [| | | |t|l|mitems]; simpl; try text.
      * destruct (PyStr.contains "content" t); [text|].
        destruct (Py.dict_get items "response") as [v|]; text.
      * destruct (existsb (Py.eq_str "content") l); [text|].
        destruct (Py.dict_get items "response") as [v|]; text.
      * destruct (Py.dict_get mitems "content") as [c|] eqn:Hc; [text|].
        destruct (Py.dict_get items "response") as [v|]; text.
    + destruct (Py.dict_get items "response") as [v|]; text.
Qed.

Lemma handled_log API_URL lc e :
  (length (handled API_URL lc e).1 ≤ 1)%nat
  ∧ ((handled API_URL lc e).1 = [] → ∃ e', (handled API_URL lc e).2 = Raise e').
Proof.
  unfold handled. destruct (select e) as [c|]; [|simpl; split; [lia | eauto]].
  destruct c; simpl; try (split; [lia | done]).
  - destruct (response lc); simpl; split; try lia; try done; eauto.
  - destruct (response_data lc); simpl; split; try lia; try done; eauto.
Qed.

End RelayMore.

(** X11.  The relay lets an exception out in three situations only.
    In two of them it is an [UnboundLocalError]: the HTTP call raised
    something the [JSONDecodeError] or the [KeyError] clause takes, or
    [json()] raised something the [KeyError] clause takes; in each the
    clause reads a local that is not bound yet.  In the third the [try]
    suite raised something that is no instance of [Exception] (a
    cancellation, say), which no clause takes and which leaves as it is.
    In every other case the relay returns a string. *)
Theorem relay_raises_exactly_when API_URL OLLAMA_MODEL post prompt :
  (∀ e', (call_ollama_api API_URL OLLAMA_MODEL post prompt).2 = Raise e' →
         exn_cls e' = UnboundLocalError
         ∨ (isinstance e' Exception = false
            ∧ (try_suite API_URL OLLAMA_MODEL post prompt).2.2 = Raise e'))
  ∧ ((∃ e', (call_ollama_api API_URL OLLAMA_MODEL post prompt).2 = Raise e')
     ↔ (∃ e, post (payload API_URL OLLAMA_MODEL prompt) = Raise e
             ∧ (select e = Some ExceptJSONDecodeError
                ∨ select e = Some ExceptKeyError))
       ∨ (∃ r e, post (payload API_URL OLLAMA_MODEL prompt) = Ret r
                 ∧ Http.raise_for_status r = Ret tt
                 ∧ json r = Raise e
                 ∧ select e = Some ExceptKeyError)
       ∨ (∃ e, (try_suite API_URL OLLAMA_MODEL post prompt).2.2 = Raise e
               ∧ isinstance e Exception = false)).
Proof.
  assert (Hsel : ∀ e c, select e = Some c → isinstance e Exception = false → False).
  { intros e c Hc Hexc. apply RelayFacts.select_none in Hexc. congruence. }
  unfold try_suite.
  destruct (post (payload API_URL OLLAMA_MODEL prompt)) as [r|e] eqn:Hp.
  - destruct (Http.raise_for_status r) as [[]|e] eqn:Hs.
    + destruct (json r) as [d|e] eqn:Hj.
      * pose proof (RelayFacts.relay_decoded_cases _ _ _ _ _ _ Hp Hs Hj) as Hend.
        assert (Hret : ∃ s, (call_ollama_api API_URL OLLAMA_MODEL post prompt).2
                            = Ret s).
        { inversion Hend; simpl; eauto. }
        destruct Hret as [s Hret]. rewrite Hret.
        split; [done|]. split; [by intros [? [=]]|].
        intros [(e & He & _) | [(r' & e & Hr & _ & Hj' & _) | (e & He & Hexc)]];
          simplify_eq; try congruence.
        apply RelayFacts.extract_raises in He.
        destruct e as [cls msg]. simpl in He.
        by destruct He as [-> | ->].
      * rewrite (RelayFacts.relay_json_raises _ _ _ _ _ _ Hp Hs Hj).
        unfold RelayCases.handled. simpl.
        destruct (select e) as [c|] eqn:Hc.
        -- destruct c; simpl.
           all: split; [try done; intros e' [= <-]; by left |].
           all: split.
           all: try (by intros [? [=]]).
           all: try (intros [(e0 & He0 & _)
                            | [(r' & e0 & Hr & _ & Hj' & Hk) | (e0 & He0 & Hexc)]];
                     simplify_eq; try congruence; by destruct (Hsel _ _ Hc Hexc)).
           ++ intros _. right. left. by exists r, e.
           ++ intros _. eexists. reflexivity.
        -- simpl. split.
           ++ intros e' [= <-]. right. split; [by apply RelayFacts.select_none|done].
           ++ split; [|by eauto].
              intros _. right. right. exists e.
              split; [done | by apply RelayFacts.select_none].
    + rewrite (RelayFacts.relay_status_raises _ _ _ _ _ _ Hp Hs).
      pose proof (RelayFacts.raise_for_status_raises r e Hs) as Hcls.
      unfold RelayCases.handled, select, isinstance. rewrite Hcls. simpl.
      split; [done|]. split; [by intros [? [=]]|].
      intros [(e0 & He0 & _) | [(r' & e0 & Hr & Hs' & _) | (e0 & He0 & Hexc)]];
        simplify_eq; try congruence.
      unfold isinstance in Hexc. rewrite Hcls in Hexc. discriminate Hexc.
  - rewrite (RelayFacts.relay_post_raises _ _ _ _ _ Hp).
    unfold RelayCases.handled. simpl.
    destruct (select e) as [c|] eqn:Hc.
    + destruct c; simpl.
      all: split; [try done; intros e' [= <-]; by left |].
      all: split.
      all: try (by intros [? [=]]).
      all: try (intros [(e0 & He0 & [Hk | Hk])
                       | [(r' & e0 & Hr & _) | (e0 & He0 & Hexc)]];
                simplify_eq; try congruence; by destruct (Hsel _ _ Hc Hexc)).
      all: first [ intros _; eexists; reflexivity
                 | intros _; left; exists e; eauto ].
    + simpl. split.
      * intros e' [= <-]. right. split; [by apply RelayFacts.select_none|done].
      * split; [|by eauto].
        intros _. right. right. exists e.
        split; [done | by apply RelayFacts.select_none].
Qed.

(** X12.  The relay logs at most one record, and logs none only when
    the [try] suite returned a text of the backend or an exception left
    the function: every failure text it returns has its log record. *)
Theorem relay_logs_each_failure_once API_URL OLLAMA_MODEL post prompt :
  (length (call_ollama_api API_URL OLLAMA_MODEL post prompt).1 ≤ 1)%nat
  ∧ ((call_ollama_api API_URL OLLAMA_MODEL post prompt).1 = [] →
     (∃ s, (try_suite API_URL OLLAMA_MODEL post prompt).2 = ([], Ret s))
     ∨ (∃ e, (call_ollama_api API_URL OLLAMA_MODEL post prompt).2 = Raise e)).
Proof.
  destruct (post (payload API_URL OLLAMA_MODEL prompt)) as [r|e] eqn:Hp.
  - destruct (Http.raise_for_status r) as [[]|e] eqn:Hs.
    + destruct (json r) as [d|e] eqn:Hj.
      * pose proof (RelayFacts.relay_decoded_cases _ _ _ _ _ _ Hp Hs Hj) as Hend.
        inversion Hend as [s Hx Heq| |e1 He1 Heq]; simpl;
          (split; [lia|]); try done.
        intros _. left. exists s. unfold try_suite. by rewrite Hp, Hs, Hj.
      * rewrite (RelayFacts.relay_json_raises _ _ _ _ _ _ Hp Hs Hj).
        destruct (RelayMore.handled_log API_URL (mkLocals (Some r) None) e)
          as [Hlen Hnil]. split; [done|]. intros H. right. by apply Hnil.
    + rewrite (RelayFacts.relay_status_raises _ _ _ _ _ _ Hp Hs).
      destruct (RelayMore.handled_log API_URL (mkLocals (Some r) None) e)
        as [Hlen Hnil]. split; [done|]. intros H. right. by apply Hnil.
  - rewrite (RelayFacts.relay_post_raises _ _ _ _ _ Hp).
    destruct (RelayMore.handled_log API_URL (mkLocals None None) e)
      as [Hlen Hnil]. split; [done|]. intros H. right. by apply Hnil.
Qed.

(** X13.  A text the [try] suite returns carries no leading or trailing
    whitespace: stripping it again changes nothing. *)
Theorem relayed_text_is_stripped API_URL OLLAMA_MODEL post prompt (s : string) :
  (try_suite API_URL OLLAMA_MODEL post prompt).2.2 = Ret s →
  PyStr.strip s = s.
Proof.
  unfold try_suite.
  destruct (post _) as [r|e]; [|done].
  destruct (Http.raise_for_status r) as [[]|e]; [|done].
  destruct (json r) as [d|e]; [|done]. simpl.
  intros Hs. destruct (RelayMore.extract_text d s Hs) as [-> | [x ->]].
  - vm_compute. reflexivity.
  - apply StripFacts.strip_idempotent.
Qed.

Lemma relayed_text_is_stripped_witness :
  PyStr.strip "Paris." = "Paris.".
Proof.
  apply (relayed_text_is_stripped Sample.url Sample.model
           (Sample.answers (Sample.chat "  Paris.  ")) "hello" "Paris.").
  vm_compute. reflexivity.
Defined.

(** ** Start-up *)

Module StartupFacts.
Import Startup.

(** The configuration a dict with the three required keys yields. *)
Definition config_of (items : list (string * pyval)) (token url prefix : pyval)
    : Config :=
  mkConfig token url prefix
    (default (PStr "llama3.2:3b") (Py.dict_get items "ollama_model"))
    (default PNone (Py.dict_get items "hosted_by"))
    (default PNone (Py.dict_get items "version")).

Lemma load_dict items :
  load_config (Reads (Ret (PDict items)))
  = match Py.dict_get items "discord_token" with
    | None => Exited "Error: Missing key in config.json: 'discord_token'"
    | Some token =>
        match Py.dict_get items "api_url" with
        | None => Exited "Error: Missing key in config.json: 'api_url'"
        | Some url =>
            match Py.dict_get items "prefix" with
            | None => Exited "Error: Missing key in config.json: 'prefix'"
            | Some prefix => Loaded (config_of items token url prefix)
            end
        end
    end.
Proof.
  unfold load_config, read_config, config_of. simpl.
  destruct (Py.dict_get items "discord_token") as [token|]; simpl; [|done].
  destruct (Py.dict_get items "api_url") as [url|]; simpl; [|done].
  destruct (Py.dict_get items "prefix") as [prefix|]; simpl; [|done].
  by destruct (Py.dict_get items "ollama_model"),
             (Py.dict_get items "hosted_by"), (Py.dict_get items "version").
Qed.

Lemma load_non_dict v :
  (∀ items, v ≠ PDict items) →
  ∃ e, load_config (Reads (Ret v)) = Crashed e ∧ exn_cls e = TypeError.
Proof.
  intros Hv. destruct v; try (eexists; split; reflexivity).
  by destruct (Hv items).
Qed.

Lemma load_raised e cfg : load_config (Reads (Raise e)) ≠ Loaded cfg.
Proof.
  unfold load_config. simpl.
  by destruct (isinstance e KeyError), (isinstance e JSONDecodeError).
Qed.

(** Loading succeeds exactly on a dict with the three required keys. *)
Lemma loaded_iff f cfg :
  load_config f = Loaded cfg
  ↔ ∃ items token url prefix,
      f = Reads (Ret (PDict items))
      ∧ Py.dict_get items "discord_token" = Some token
      ∧ Py.dict_get items "api_url" = Some url
      ∧ Py.dict_get items "prefix" = Some prefix
      ∧ cfg = config_of items token url prefix.
Proof.
  split.
  - destruct f as [|[v|e]];
      [ intros Hl; simpl in Hl; discriminate Hl | 
      | intros Hl; by apply load_raised in Hl ].
    destruct v as [| | | | | |items];
      try (intros Hl;
           edestruct (load_non_dict) as (e & He & _);
             [|rewrite He in Hl; discriminate Hl]; done).
    rewrite load_dict.
    destruct (Py.dict_get items "discord_token") as [token|] eqn:Ht; [|done].
    destruct (Py.dict_get items "api_url") as [url|] eqn:Hu; [|done].
    destruct (Py.dict_get items "prefix") as [prefix|] eqn:Hp; [|done].
    intros [= <-]. by exists items, token, url, prefix.
  - intros (items & token & url & prefix & -> & Ht & Hu & Hp & ->).
    by rewrite load_dict, Ht, Hu, Hp.
Qed.

End StartupFacts.

(** X14.  Run as a script, the program calls [bot.run] exactly when
    config.json exists and decodes to an object that has the keys
    [discord_token], [api_url] and [prefix], and the token is neither the
    placeholder text nor a false value (empty string, null, zero, empty
    list or object); the call is then made with that token. *)
Theorem bot_started_exactly_when float_nonzero f run (token : pyval) :
  Startup.started (Startup.script float_nonzero f run) = Some token
  ↔ ∃ items,
      f = Startup.Reads (Ret (PDict items))
      ∧ Py.dict_get items "discord_token" = Some token
      ∧ is_Some (Py.dict_get items "api_url")
      ∧ is_Some (Py.dict_get items "prefix")
      ∧ token ≠ PStr "YOUR_DISCORD_BOT_TOKEN_HERE"
      ∧ Startup.truthy float_nonzero token = true.
Proof.
  assert (Hplace : ∀ t, Py.eq_str "YOUR_DISCORD_BOT_TOKEN_HERE" t = true
                        ↔ t = PStr "YOUR_DISCORD_BOT_TOKEN_HERE").
  { intros t. unfold Py.eq_str.
    destruct t; try (split; [discriminate|discriminate]).
    rewrite String.eqb_eq. split; [by intros <- | by intros [= <-]]. }
  unfold Startup.script. split.
  - destruct (Startup.load_config f) as [cfg|line|e] eqn:Hload; simpl;
      [|done|done].
    apply StartupFacts.loaded_iff in Hload
      as (items & tok & url & prefix & -> & Ht & Hu & Hp & ->).
    simpl. unfold Startup.main.
    destruct (Py.eq_str _ tok) eqn:Heq; simpl; [done|].
    destruct (Startup.truthy float_nonzero tok) eqn:Htruth; simpl; [|done].
    intros Hstarted. exists items.
    assert (tok = token) as ->.
    { destruct (run tok) as [| |e]; simpl in Hstarted;
        try destruct (isinstance e Exception); simpl in Hstarted;
        by injection Hstarted. }
    repeat split; eauto.
    intros Hbad. apply Hplace in Hbad. congruence.
  - intros (items & -> & Ht & [url Hu] & [prefix Hp] & Hne & Htruth).
    rewrite StartupFacts.load_dict, Ht, Hu, Hp. simpl. unfold Startup.main.
    destruct (Py.eq_str _ token) eqn:Heq.
    { apply Hplace in Heq. congruence. }
    rewrite Htruth. simpl.
    destruct (run token) as [| |e]; [done | done |].
    by destruct (isinstance e Exception).
Qed.

(** X15.  When the configuration object lacks a required key, the
    program prints the first one missing, in the order [discord_token],
    [api_url], [prefix], and exits; later keys are not looked at. *)
Theorem first_missing_key_reported (items : list (string * pyval)) :
  (Py.dict_get items "discord_token" = None →
   Startup.load_config (Startup.Reads (Ret (PDict items)))
   = Startup.Exited "Error: Missing key in config.json: 'discord_token'")
  ∧ (is_Some (Py.dict_get items "discord_token") →
     Py.dict_get items "api_url" = None →
     Startup.load_config (Startup.Reads (Ret (PDict items)))
     = Startup.Exited "Error: Missing key in config.json: 'api_url'")
  ∧ (is_Some (Py.dict_get items "discord_token") →
     is_Some (Py.dict_get items "api_url") →
     Py.dict_get items "prefix" = None →
     Startup.load_config (Startup.Reads (Ret (PDict items)))
     = Startup.Exited "Error: Missing key in config.json: 'prefix'").
Proof.
  rewrite StartupFacts.load_dict. split; [|split].
  - by intros ->.
  - by intros [token ->] ->.
  - by intros [token ->] [url ->] ->.
Qed.

Lemma first_missing_key_reported_witness :
  Startup.load_config
    (Startup.Reads (Ret (PDict [("discord_token", PStr "t"); ("hosted_by", PStr "me")])))
  = Startup.Exited "Error: Missing key in config.json: 'api_url'".
Proof.
  destruct (first_missing_key_reported
              [("discord_token", PStr "t"); ("hosted_by", PStr "me")])
    as (_ & Hurl & _).
  apply Hurl; [by eexists | reflexivity].
Defined.

(** X16.  A config.json that is valid JSON but no object (an array, a
    string, a number, true, false, null) is not reported by any of the
    three clauses: the subscript raises [TypeError], which ends the
    program with a traceback. *)
Theorem non_object_config_crashes (v : pyval) :
  (∀ items, v ≠ PDict items) →
  ∃ e, Startup.load_config (Startup.Reads (Ret v)) = Startup.Crashed e
       ∧ exn_cls e = TypeError.
Proof.
  intros Hv. destruct v; try (eexists; split; reflexivity).
  by destruct (Hv items).
Qed.

Lemma non_object_config_crashes_witness :
  ∃ e, Startup.load_config (Startup.Reads (Ret (PList []))) = Startup.Crashed e
       ∧ exn_cls e = TypeError.
Proof. apply (non_object_config_crashes (PList [])). discriminate. Defined.

(** ** The [help] command *)

(** X17.  Metadata the configuration leaves out is shown as the text
    "None": without [hosted_by] the help reads "... hosted by None", and
    without [version] its last field is titled "... Version: None";
    without [ollama_model] the model shown is "llama3.2:3b". *)
Theorem help_shows_missing_metadata
    (items : list (string * pyval)) (cfg : Startup.Config) (prefix : string) :
  Startup.load_config (Startup.Reads (Ret (PDict items))) = Startup.Loaded cfg →
  Startup.PREFIX cfg = PStr prefix →
  Py.dict_get items "ollama_model" = None →
  Py.dict_get items "hosted_by" = None →
  Py.dict_get items "version" = None →
  Events.help_for cfg
  = Some (Events.custom_help prefix "llama3.2:3b" "None" "None")
  ∧ Events.fields (Events.custom_help prefix "llama3.2:3b" "None" "None") !! 4%nat
    = Some (Events.mkField "Instance Informations"
              "Using model: llama3.2:3b hosted by None" false)
  ∧ Events.fields (Events.custom_help prefix "llama3.2:3b" "None" "None") !! 5%nat
    = Some (Events.mkField "Ollama Discord Bot | Version: None"
              "github.com/Nakildias/OllamaDiscordBot" false).
Proof.
  intros Hload Hprefix Hmodel Hhost Hversion.
  apply StartupFacts.loaded_iff in Hload
    as (items' & tok & url & pre & [= <-] & Ht & Hu & Hp & ->).
  unfold StartupFacts.config_of in *. simpl in Hprefix. subst pre.
  split; [|split; reflexivity].
  unfold Events.help_for. simpl. by rewrite Hmodel, Hhost, Hversion.
Qed.

Lemma help_shows_missing_metadata_witness :
  Events.help_for
    (StartupFacts.config_of
       [("discord_token", PStr "t"); ("api_url", PStr Sample.url); ("prefix", PStr "!")]
       (PStr "t") (PStr Sample.url) (PStr "!"))
  = Some (Events.custom_help "!" "llama3.2:3b" "None" "None").
Proof.
  apply (help_shows_missing_metadata
           [("discord_token", PStr "t"); ("api_url", PStr Sample.url);
            ("prefix", PStr "!")] _ "!"); reflexivity.
Defined.

(** ** Instances of the properties above *)

Lemma stored_instructions_well_formed_witness :
  ∃ name, "Answer me in Spanish." = "Answer me in " +:+ name +:+ "."
          ∧ PyStr.lower name ∉ Prefs.reset_keywords.
Proof.
  apply (proj1 (stored_instructions_well_formed
                  [(mkContext 7 "ana", "french"); (mkContext 7 "ana", "Spanish")] 7)).
  vm_compute. reflexivity.
Defined.

Lemma relay_raises_exactly_when_witness :
  ∃ e', (call_ollama_api Sample.url Sample.model
           (Sample.fails (mkExn (BaseOnly "CancelledError") ""))
           "hello").2 = Raise e'.
Proof.
  apply (proj2 (proj2 (relay_raises_exactly_when Sample.url Sample.model
                         (Sample.fails (mkExn (BaseOnly "CancelledError") ""))
                         "hello"))).
  right. right. exists (mkExn (BaseOnly "CancelledError") "").
  split; vm_compute; reflexivity.
Defined.

Lemma relay_logs_each_failure_once_witness :
  (∃ s, (try_suite Sample.url Sample.model
           (Sample.answers (Sample.chat "Paris.")) "hello").2 = ([], Ret s))
  ∨ (∃ e, (call_ollama_api Sample.url Sample.model
             (Sample.answers (Sample.chat "Paris.")) "hello").2 = Raise e).
Proof.
  apply (proj2 (relay_logs_each_failure_once Sample.url Sample.model
                  (Sample.answers (Sample.chat "Paris.")) "hello")).
  vm_compute. reflexivity.
Defined.

Lemma bot_started_exactly_when_witness :
  Startup.started
    (Startup.script (fun _ => true)
       (Startup.Reads (Ret (PDict [("discord_token", PStr "t");
                                   ("api_url", PStr Sample.url);
                                   ("prefix", PStr "!")])))
       (fun _ => Startup.LoginFailure))
  = Some (PStr "t").
Proof.
  apply (proj2 (bot_started_exactly_when (fun _ => true) _
                  (fun _ => Startup.LoginFailure) (PStr "t"))).
  eexists. split; [reflexivity|].
  split; [reflexivity|]. split; [by eexists|]. split; [by eexists|].
  split; [discriminate | reflexivity].
Defined.
